(** * GCE metadata credential resolution: a shallow embedding

    The Go package [gcpcredentials] resolves container-registry credentials
    from the instance-metadata service of a cloud VM.  This file embeds its
    functions ([readURL], [runWithBackoff], [OnGCEVM], [HasStorageScope] and
    the three [Provide...] functions) together with the [Provide] methods
    of the [gcp] package that wrap them, and proves the properties the
    specification states about them.

    Conventions of the embedding:
    - a Go [string] and a Go [[]byte] are both a Rocq [string] (a sequence
      of 8-bit characters); the conversions [string(b)] and [[]byte(s)] are
      the identity, and a nil byte slice is the empty string (the code
      never tells them apart);
    - a Go [error] is an [option GoError], [None] being [nil];
    - a Go map is an [option (gmap ...)], [None] being the nil map;
    - a function that returns [(value, err)] returns a pair, both
      components being kept as the code sets them;
    - outbound HTTP traffic is a state: the list of requests handed to
      [client.Do] so far, most recent first;
    - the standard library functions whose behaviour the package does not
      fix (the network, [encoding/json], [net/url], [strings.TrimSpace]) are
      the fields of a class [Runtime]; every theorem holds for every
      instance, and the module [Reference] builds concrete ones. *)

From Stdlib Require Import ZArith Lia Bool List Ascii String.
From stdpp Require Import base option list strings gmap.

Local Open Scope string_scope.

(** ** Values of the Go standard library *)

(** Modelled from the spec: the struct [HTTPError], which [readURL] builds
    from the fields [StatusCode] and [URL], is declared outside the
    excerpt; the specification gives it as [HTTPStatus{code, url}], which is
    the first constructor.  The two others are the error values the package
    can see besides: [errorString] is what [errors.New] builds, and
    [externalError] stands for the errors of net/http, io, os and
    encoding/json. *)
Inductive GoError : Type :=
| HTTPError (StatusCode : Z) (URL : string)
| errorString (msg : string)
| externalError (msg : string).

Definition error := option GoError.

Definition http_Header := gmap string (list string).

Record http_Request : Type := mkRequest {
  Method : string;
  URL : string;
  Header : http_Header
}.

(** A response body is a stream: it delivers [body_data] and then ends,
    either with end-of-file ([body_failure = None]) or with a read error,
    which the read that follows the last byte reports. *)
Record Body : Type := mkBody {
  body_data : string;
  body_failure : error
}.

Record http_Response : Type := mkResponse {
  StatusCode : Z;
  resp_Body : Body
}.

(** The requests handed to the HTTP client so far, most recent first. *)
Definition Wire := list http_Request.

(** An [*http.Client]: what [Do] answers to a request, given the requests
    that were sent before it.  A client sends through the [RoundTripper] it
    was built with, so the type excludes no URL and no answer. *)
Record http_Client : Type := mkClient {
  Do : Wire -> http_Request -> http_Response + GoError
}.

(** [DockerConfigEntry] and [DockerConfig] of the package. *)
Record DockerConfigEntry : Type := mkEntry {
  Username : string;
  Password : string;
  Email : string
}.

Definition DockerConfig := option (gmap string DockerConfigEntry).

(** [tokenBlob] decodes the JSON blob that carries the access token. *)
Record tokenBlob : Type := mkTokenBlob {
  AccessToken : string
}.

(** ** The environment of the package *)

Class Runtime : Type := {
  (** Modelled from the spec: the constant [maxReadLength] is used by
      [readURL] but declared outside the excerpt; the specification calls it
      the configured maximum byte cap.  No value is assumed for it. *)
  maxReadLength : Z;
  (** the package variable [httpClient] *)
  httpClient : http_Client;
  (** the failure of [url.Parse] inside [http.NewRequest], if any *)
  url_Parse : string -> error;
  (** [strings.TrimSpace] *)
  strings_TrimSpace : string -> string;
  (** [runtime.GOOS] *)
  runtime_GOOS : string;
  (** [exec.Command(name, args...).Output()] *)
  exec_Command_Output : string -> list string -> string * error;
  (** [ioutil.ReadFile(path)] *)
  ioutil_ReadFile : string -> string * error;
  (** [json.Unmarshal(data, &v)] at the three target types of the package:
      the target before the call, the target after it, and the error *)
  json_Unmarshal_strings : string -> list string -> list string * error;
  json_Unmarshal_tokenBlob : string -> tokenBlob -> tokenBlob * error;
  json_Unmarshal_DockerConfig : string -> DockerConfig -> DockerConfig * error
}.

(** ** Constants of the package *)

Definition metadataURL := "http://metadata.google.internal./computeMetadata/v1/".
Definition metadataAttributes := metadataURL ++ "instance/attributes/".
Definition dockerConfigKey := metadataAttributes ++ "google-dockercfg".
Definition dockerConfigURLKey := metadataAttributes ++ "google-dockercfg-url".
Definition serviceAccounts := metadataURL ++ "instance/service-accounts/".
Definition metadataScopes := metadataURL ++ "instance/service-accounts/default/scopes".
Definition metadataToken := metadataURL ++ "instance/service-accounts/default/token".
Definition metadataEmail := metadataURL ++ "instance/service-accounts/default/email".
Definition storageScopePrefix := "https://www.googleapis.com/auth/devstorage".
Definition cloudPlatformScopePrefix := "https://www.googleapis.com/auth/cloud-platform".
Definition defaultServiceAccount := "default/".

Definition containerRegistryUrls : list string :=
  ["container.cloud.google.com"; "gcr.io"; "*.gcr.io"; "*.pkg.dev"].

Definition metadataHeader : http_Header :=
  {[ "Metadata-Flavor" := ["Google"] ]}.

Definition http_StatusOK : Z := 200.

(** ** Helpers of the package strings *)

(** The separators ["\n"] and ["\r\n"] of the source. *)
Definition LF : string := String "010"%char "".
Definition CRLF : string := String "013"%char LF.

(** The double quote, and [s] between double quotes. *)
Definition quote : ascii := "034"%char.
Definition quoted (s : string) : string := String quote (s ++ String quote "").

(** [strings.HasPrefix(s, prefix)] *)
Definition strings_HasPrefix (s prefix : string) : bool := String.prefix prefix s.

(** [strings.Split(s, sep)] for a non-empty separator: the fields between
    the leftmost non-overlapping occurrences of [sep].  [skip] counts the
    characters of an occurrence that remain to be dropped. *)
Fixpoint Split_from (sep : string) (skip : nat) (s : string) : list string :=
  match s with
  | EmptyString => [""]
  | String c s' =>
    match skip with
    | S k => Split_from sep k s'
    | O =>
      if String.prefix sep s then "" :: Split_from sep (String.length sep - 1) s'
      else match Split_from sep 0 s' with
           | [] => [String c ""]
           | field :: fields => String c field :: fields
           end
    end
  end.

Definition strings_Split (s sep : string) : list string := Split_from sep 0 s.

(** ** Durations *)

(** [time.Duration] is an int64 count of nanoseconds. *)
Definition int64 (z : Z) : Z := ((z + 2 ^ 63) mod 2 ^ 64 - 2 ^ 63)%Z.

Definition time_Millisecond : Z := 1000000.
Definition time_Second : Z := 1000000000.
Definition time_Minute : Z := 60 * time_Second.

(** ** A state monad over the wire *)

Definition M (A : Type) : Type := Wire -> A * Wire.

Definition ret {A} (a : A) : M A := fun w => (a, w).

Definition bind {A B} (m : M A) (k : A -> M B) : M B :=
  fun w => let (a, w') := m w in k a w'.

Notation "'do' x <- m ; k" := (bind m (fun x => k))
  (at level 10, x name, m at level 100, k at level 200).
Notation "'do' ' p <- m ; k" := (bind m (fun x => match x with p => k end))
  (at level 10, p pattern, m at level 100, k at level 200).

(** ** The retry loop *)

Section Backoff.
Context {S : Type}.

Definition maxBackoff : Z := time_Minute.

(** The loop of [runWithBackoff], started with a given delay.  [f] is any
    operation on a state of its own.  The loop has no exit but success, so
    the model takes the number of attempts it may make: [None] says that
    [f] failed at every one of them.  The durations given to [time.Sleep]
    are returned in the order of the calls. *)
Fixpoint runWithBackoff_from (fuel : nat) (f : S -> (string * error) * S)
    (backoff : Z) (s : S) : option (string * list Z * S) :=
  match fuel with
  | O => None
  | Datatypes.S fuel' =>
    let '((value, err), s') := f s in
    match err with
    | None => Some (value, [], s')
    | Some _ =>
      let slept := backoff in
      let backoff := int64 (backoff * 2) in
      let backoff := if (maxBackoff <? backoff)%Z then maxBackoff else backoff in
      match runWithBackoff_from fuel' f backoff s' with
      | Some (value, sleeps, s'') => Some (value, slept :: sleeps, s'')
      | None => None
      end
    end
  end.

Definition runWithBackoff (fuel : nat) (f : S -> (string * error) * S)
  : S -> option (string * list Z * S) :=
  runWithBackoff_from fuel f (100 * time_Millisecond)%Z.

End Backoff.

Section Package.
Context `{RT : Runtime}.

(** ** The metadata client *)

(** [http.NewRequest(method, url, nil)]: fails when the URL does not parse,
    and otherwise builds a request with an empty header. *)
Definition http_NewRequest (method url : string) : http_Request + GoError :=
  match url_Parse url with
  | Some err => inr err
  | None => inl (mkRequest method url ∅)
  end.

(** [client.Do(req)]: the request goes on the wire. *)
Definition client_Do (client : http_Client) (req : http_Request)
  : M (http_Response + GoError) :=
  fun w => (Do client w req, req :: w).

(** [ioutil.ReadAll(&io.LimitedReader{R: body, N: n})]: the contents, the
    error and the value of [N] left in the reader.  The limited reader
    answers end-of-file once [N <= 0] and never asks the body for more than
    [N] bytes. *)
Definition ReadAll_LimitedReader (body : Body) (n : Z) : string * error * Z :=
  let len := Z.of_nat (String.length (body_data body)) in
  if (n <=? 0)%Z then ("", None, n)
  else if (n <=? len)%Z then (String.substring 0 (Z.to_nat n) (body_data body), None, 0%Z)
  else (body_data body, body_failure body, (n - len)%Z).

Definition readURL (url : string) (client : http_Client)
    (header : option http_Header) : M (string * error) :=
  match http_NewRequest "GET" url with
  | inr err => ret ("", Some err)
  | inl req =>
    let req := match header with
               | Some h => mkRequest (Method req) (URL req) h
               | None => req
               end in
    do r <- client_Do client req;
    match r with
    | inr err => ret ("", Some err)
    | inl resp =>
      if negb (StatusCode resp =? http_StatusOK)%Z then
        ret ("", Some (HTTPError (StatusCode resp) url))
      else
        let '(contents, err, N) := ReadAll_LimitedReader (resp_Body resp) maxReadLength in
        match err with
        | Some e => ret ("", Some e)
        | None =>
          if (N <=? 0)%Z then ret ("", Some (errorString "the read limit is reached"))
          else ret (contents, None)
        end
    end
  end.

(** ** Reading a docker configuration *)

Definition readDockerConfigFileFromBytes (contents : string) : DockerConfig * error :=
  (* the named results [cfg] and [err] start as the nil map and nil *)
  let cfg : DockerConfig := None in
  let '(cfg, err) := json_Unmarshal_DockerConfig contents cfg in
  match err with
  | Some _ => (None, Some (errorString "error occurred while trying to unmarshal json"))
  | None => (cfg, err)
  end.

(** The [err] that the [if] statement declares with [:=] lives in the scope
    of the [if] only; the [err] of the final [return nil, err] is the named
    result, which nothing has assigned. *)
Definition ReadDockerConfigFileFromURL (url : string) (client : http_Client)
    (header : option http_Header) : M (DockerConfig * error) :=
  let err : error := None in
  do '(contents, err_if) <- readURL url client header;
  match err_if with
  | None => ret (readDockerConfigFileFromBytes contents)
  | Some _ => ret (None, err)
  end.

(** ** The three providers *)

Definition ProvideDockerConfigKey (image : string) : M DockerConfig :=
  do '(cfg, err) <- ReadDockerConfigFileFromURL dockerConfigKey httpClient (Some metadataHeader);
  match err with
  | Some _ => ret (Some ∅)
  | None => ret cfg
  end.

Definition ProvideDockerConfigURLKey (image : string) : M DockerConfig :=
  do '(url, err) <- readURL dockerConfigURLKey httpClient (Some metadataHeader);
  match err with
  | Some _ => ret (Some ∅)
  | None =>
    if strings_HasPrefix url "http" then
      do '(cfg, err) <- ReadDockerConfigFileFromURL url httpClient None;
      match err with
      | Some _ => ret (Some ∅)
      | None => ret cfg
      end
    else ret (Some ∅)
  end.

Definition ProvideContainerRegistry (image : string) : M DockerConfig :=
  let cfg : gmap string DockerConfigEntry := ∅ in
  do '(tokenJSONBlob, err) <- readURL metadataToken httpClient (Some metadataHeader);
  match err with
  | Some _ => ret (Some cfg)
  | None =>
    do '(email, err) <- readURL metadataEmail httpClient (Some metadataHeader);
    match err with
    | Some _ => ret (Some cfg)
    | None =>
      let '(parsedBlob, err) := json_Unmarshal_tokenBlob tokenJSONBlob (mkTokenBlob "") in
      match err with
      | Some _ => ret (Some cfg)
      | None =>
        let entry := mkEntry "_token" (AccessToken parsedBlob) email in
        ret (Some (foldl (fun cfg k => <[k := entry]> cfg) cfg containerRegistryUrls))
      end
    end
  end.

(** ** Enablement *)

Definition gceProductNameFile := "/sys/class/dmi/id/product_name".

Definition OnGCEVM : bool :=
  if String.eqb runtime_GOOS "windows" then
    let '(data, err) := exec_Command_Output "wmic" ["computersystem"; "get"; "model"] in
    match err with
    | Some _ => false
    | None =>
      let fields := strings_Split (strings_TrimSpace data) CRLF in
      match fields with
      | [_; name] => String.eqb name "Google" || String.eqb name "Google Compute Engine"
      | _ => false
      end
    end
  else
    let '(data, err) := ioutil_ReadFile gceProductNameFile in
    match err with
    | Some _ => false
    | None =>
      let name := strings_TrimSpace data in
      String.eqb name "Google" || String.eqb name "Google Compute Engine"
    end.

(** Whether one of the lines of [value] is the default service account. *)
Definition defaultServiceAccountExists (value : string) : bool :=
  existsb (fun sa => String.eqb (strings_TrimSpace sa) defaultServiceAccount)
          (strings_Split value LF).

(** The two closures that [HasStorageScope] retries: a [readURL] and, when
    it fails, a line of log. *)
Definition fetchServiceAccounts : M (string * error) :=
  readURL serviceAccounts httpClient (Some metadataHeader).

Definition fetchScopes : M (string * error) :=
  let url := metadataScopes ++ "?alt=json" in
  readURL url httpClient (Some metadataHeader).

(** Whether one of the scopes gives access to storage. *)
Definition hasScope (scopes : list string) : bool :=
  existsb (fun v => strings_HasPrefix v storageScopePrefix
                    || strings_HasPrefix v cloudPlatformScopePrefix) scopes.

Definition HasStorageScope (fuel : nat) (w : Wire) : option (bool * list Z * Wire) :=
  match runWithBackoff fuel fetchServiceAccounts w with
  | None => None
  | Some (value, sleeps1, w1) =>
    if negb (defaultServiceAccountExists value) then Some (false, sleeps1, w1)
    else
      match runWithBackoff fuel fetchScopes w1 with
      | None => None
      | Some (value, sleeps2, w2) =>
        let '(scopes, err) := json_Unmarshal_strings value [] in
        match err with
        | Some _ => Some (false, (sleeps1 ++ sleeps2)%list, w2)
        | None => Some (hasScope scopes, (sleeps1 ++ sleeps2)%list, w2)
        end
      end
  end.

(** ** The providers of package [gcp] *)

(** The loop shared by the three [Provide] methods: a fresh map receives
    every entry of [gcpCfg], field by field.  Ranging over the nil map runs
    no iteration. *)
Definition copyDockerConfig (gcpCfg : DockerConfig) : DockerConfig :=
  let cfg : gmap string DockerConfigEntry := ∅ in
  Some (map_fold
          (fun key value cfg =>
             <[key := mkEntry (Username value) (Password value) (Email value)]> cfg)
          cfg (default ∅ gcpCfg)).

Definition dockerConfigKeyProvider_Provide (image : string) : M DockerConfig :=
  do gcpCfg <- ProvideDockerConfigKey image;
  ret (copyDockerConfig gcpCfg).

Definition dockerConfigURLKeyProvider_Provide (image : string) : M DockerConfig :=
  do gcpCfg <- ProvideDockerConfigURLKey image;
  ret (copyDockerConfig gcpCfg).

Definition containerRegistryProvider_Provide (image : string) : M DockerConfig :=
  do gcpCfg <- ProvideContainerRegistry image;
  ret (copyDockerConfig gcpCfg).

(** [metadataProvider.Enabled] and [containerRegistryProvider.Enabled] *)
Definition metadataProvider_Enabled : bool := OnGCEVM.

Definition containerRegistryProvider_Enabled (fuel : nat) (w : Wire)
  : option (bool * list Z * Wire) :=
  if negb OnGCEVM then Some (false, [], w)
  else HasStorageScope fuel w.

End Package.

(** ** Package [cloudprovider]: the migration configuration *)

Module cloudprovider.

Definition ccm := "cloud-controller-manager".
Definition kcm := "kube-controller-manager".

Record dummyMigrationConfig : Type := mkConfig {
  component : string
}.




Definition CloudNodeController (m : dummyMigrationConfig) : bool * bool :=
  (true, true).

Definition ServiceController (m : dummyMigrationConfig) : bool * bool :=
  if String.eqb (component m) ccm then (true, false) else (false, false).

Definition RouteController (m : dummyMigrationConfig) : bool * bool :=
  if String.eqb (component m) kcm then (true, false) else (false, false).

Definition NodeIPAMController (m : dummyMigrationConfig) : bool * bool :=
  if String.eqb (component m) ccm then (true, false) else (false, false).

End cloudprovider.

(** ** Package [dnspolicy]: the REST strategy of DNSPolicy objects *)

Module dnspolicy.

Section Strategy.

(** The types of [metav1] and the validation functions are declared outside
    the excerpt and are parameters: [TypeMeta], the fields of [ObjectMeta]
    other than [Generation], [LabelSelector] and [field.Error], with
    [reflect.DeepEqual] on them being their equality, and the two functions
    of package [validation]. *)
Context {TypeMeta ObjectMetaRest LabelSelector FieldError : Type}.
Context `{EqDecision TypeMeta, EqDecision ObjectMetaRest, EqDecision LabelSelector}.

Record ObjectMeta : Type := mkObjectMeta {
  Generation : Z;
  ObjectMeta_rest : ObjectMetaRest
}.

(** [AllowedDomains] is a slice, [None] being the nil slice, which
    [reflect.DeepEqual] tells from the empty one. *)
Record DNSPolicySpec : Type := mkSpec {
  PodSelector : LabelSelector;
  AllowedDomains : option (list string)
}.

Record DNSPolicy : Type := mkDNSPolicy {
  DNSPolicy_TypeMeta : TypeMeta;
  DNSPolicy_ObjectMeta : ObjectMeta;
  Spec : DNSPolicySpec
}.

#[global] Instance ObjectMeta_eq_dec : EqDecision ObjectMeta.
Proof. solve_decision. Defined.

#[global] Instance DNSPolicySpec_eq_dec : EqDecision DNSPolicySpec.
Proof. solve_decision. Defined.

#[global] Instance DNSPolicy_eq_dec : EqDecision DNSPolicy.
Proof. solve_decision. Defined.

Context (ValidateDNSPolicy : DNSPolicy -> list FieldError).
Context (ValidateDNSPolicyUpdate : DNSPolicy -> DNSPolicy -> list FieldError).

(** [reflect.DeepEqual] on two [*DNSPolicy]. *)
Definition reflect_DeepEqual (x y : DNSPolicy) : bool := bool_decide (x = y).

(** The assignment [dnsPolicy.Generation = g]. *)
Definition setGeneration (obj : DNSPolicy) (g : Z) : DNSPolicy :=
  mkDNSPolicy (DNSPolicy_TypeMeta obj)
              (mkObjectMeta g (ObjectMeta_rest (DNSPolicy_ObjectMeta obj)))
              (Spec obj).

Definition generationOf (obj : DNSPolicy) : Z := Generation (DNSPolicy_ObjectMeta obj).

Definition NamespaceScoped : bool := true.

(** [PrepareForCreate] and [PrepareForUpdate] change [obj] in place: the
    model returns the object after the call. *)
Definition PrepareForCreate (obj : DNSPolicy) : DNSPolicy :=
  setGeneration obj 1.

Definition PrepareForUpdate (obj old : DNSPolicy) : DNSPolicy :=
  let newDNSPolicy := obj in
  let oldDNSPolicy := old in
  if negb (reflect_DeepEqual oldDNSPolicy newDNSPolicy)
  then setGeneration newDNSPolicy (int64 (generationOf oldDNSPolicy + 1))
  else newDNSPolicy.

Definition Validate (obj : DNSPolicy) : list FieldError :=
  ValidateDNSPolicy obj.

Definition Canonicalize (obj : DNSPolicy) : DNSPolicy := obj.

Definition AllowCreateOnUpdate : bool := false.

Definition ValidateUpdate (obj old : DNSPolicy) : list FieldError :=
  let newDNSPolicy := obj in
  let oldDNSPolicy := old in
  let validationErrs := ValidateDNSPolicy newDNSPolicy in
  let validationUpdateErrs := ValidateDNSPolicyUpdate newDNSPolicy oldDNSPolicy in
  (validationErrs ++ validationUpdateErrs)%list.

Definition AllowUnconditionalUpdate : bool := true.

(** The object stored after a create and after a sequence of updates, each
    update being prepared against the object stored before it; and the
    number of these updates that submit an object other than the stored
    one. *)
Fixpoint applyUpdates (stored : DNSPolicy) (objs : list DNSPolicy) : DNSPolicy :=
  match objs with
  | [] => stored
  | obj :: rest => applyUpdates (PrepareForUpdate obj stored) rest
  end.

Fixpoint countChanges (stored : DNSPolicy) (objs : list DNSPolicy) : nat :=
  match objs with
  | [] => 0
  | obj :: rest =>
    ((if reflect_DeepEqual stored obj then 0 else 1)
     + countChanges (PrepareForUpdate obj stored) rest)%nat
  end.

End Strategy.

End dnspolicy.

(** ** Vocabulary of the statements *)

(** The request that [readURL] builds for a URL and an optional header. *)
Definition requestOf (url : string) (header : option http_Header) : http_Request :=
  mkRequest "GET" url (default ∅ header).

(** The request for a URL of the metadata server. *)
Definition metadataRequest (url : string) : http_Request :=
  requestOf url (Some metadataHeader).

(** The error of [readURL] at the cap. *)
Definition errReadLimit : GoError := errorString "the read limit is reached".

(** The body of the token endpoint for the access token [T]: the JSON
    object with the one member [access_token], whose value is [T]. *)
Definition tokenBody (T : string) : string :=
  "{" ++ quoted "access_token" ++ ":" ++ quoted T ++ "}".

Section BackoffVocabulary.
Context {S : Type}.

(** [f], started in state [s], fails exactly [k] times and then succeeds
    with value [v], leaving state [s']. *)
Fixpoint failsThenSucceeds (f : S -> (string * error) * S) (k : nat) (v : string)
    (s s' : S) : Prop :=
  match k with
  | O => f s = ((v, None), s')
  | Datatypes.S k' =>
    exists x e s1, f s = ((x, Some e), s1) /\ failsThenSucceeds f k' v s1 s'
  end.

End BackoffVocabulary.

(** The delay after the failure of attempt [i], counted from 0:
    100ms doubled [i] times, and at most 60s. *)
Definition delay (i : nat) : Z :=
  Z.min (100 * time_Millisecond * 2 ^ Z.of_nat i) (60 * time_Second).

(** The sum of [delay i] for [i] from 0 to [k - 1]. *)
Fixpoint sumDelays (k : nat) : Z :=
  match k with
  | O => 0
  | Datatypes.S k' => sumDelays k' + delay k'
  end.

(** The time slept in all. *)
Definition total (sleeps : list Z) : Z := fold_right Z.add 0%Z sleeps.

(** ** A reference runtime

    A concrete instance of [Runtime], to run the package on given inputs:
    a JSON decoder for documents without [\u] escapes, [strings.TrimSpace]
    on ASCII white space, and an HTTP client that answers from a table. *)

Module Reference.

Definition backslash : ascii := "092"%char.

#[local] Unset Elimination Schemes.
Inductive json : Type :=
| JNull
| JBool (b : bool)
| JNumber (literal : string)
| JString (s : string)
| JArray (elements : list json)
| JObject (members : list (string * json)).
#[local] Set Elimination Schemes.

Definition isSpace (c : ascii) : bool :=
  (c =? " ")%char || (c =? "009")%char || (c =? "010")%char || (c =? "013")%char.

Fixpoint skipSpace (s : string) : string :=
  match s with
  | String c s' => if isSpace c then skipSpace s' else s
  | EmptyString => s
  end.

Definition unescape (c : ascii) : option ascii :=
  if (c =? quote)%char then Some quote
  else if (c =? backslash)%char then Some backslash
  else if (c =? "/")%char then Some "/"%char
  else if (c =? "b")%char then Some "008"%char
  else if (c =? "f")%char then Some "012"%char
  else if (c =? "n")%char then Some "010"%char
  else if (c =? "r")%char then Some "013"%char
  else if (c =? "t")%char then Some "009"%char
  else None.

(** The characters of a string literal, after its opening quote, and what
    follows its closing quote. *)
Fixpoint scanString (s : string) : option (string * string) :=
  match s with
  | EmptyString => None
  | String c s' =>
    if (c =? quote)%char then Some ("", s')
    else if (c =? backslash)%char then
      match s' with
      | EmptyString => None
      | String d s'' =>
        match unescape d, scanString s'' with
        | Some e, Some (str, rest) => Some (String e str, rest)
        | _, _ => None
        end
      end
    else if (nat_of_ascii c <? 32)%nat then None
    else match scanString s' with
         | Some (str, rest) => Some (String c str, rest)
         | None => None
         end
  end.

Definition isDigit (c : ascii) : bool :=
  (48 <=? nat_of_ascii c)%nat && (nat_of_ascii c <=? 57)%nat.

Fixpoint spanDigits (s : string) : string * string :=
  match s with
  | String c s' =>
    if isDigit c then let '(ds, rest) := spanDigits s' in (String c ds, rest)
    else ("", s)
  | EmptyString => ("", s)
  end.

Definition scanDigits1 (s : string) : option (string * string) :=
  match spanDigits s with
  | (EmptyString, _) => None
  | r => Some r
  end.

(** A number literal: an optional minus sign; an integer part, which is a
    single zero or digits that start with a non-zero one; an optional
    fraction (a dot and digits); an optional exponent (e or E, an optional
    sign, digits). *)
Definition scanNumber (s : string) : option (string * string) :=
  let '(sign, s) := match s with
                    | String "-" s' => ("-", s')
                    | _ => ("", s)
                    end in
  match (match s with
         | String "0" s' => Some ("0", s')
         | _ => scanDigits1 s
         end) with
  | None => None
  | Some (int, s) =>
    match (match s with
           | String "." s' =>
             match scanDigits1 s' with
             | Some (ds, rest) => Some ("." ++ ds, rest)
             | None => None
             end
           | _ => Some ("", s)
           end) with
    | None => None
    | Some (frac, s) =>
      match s with
      | String c s' =>
        if (c =? "e")%char || (c =? "E")%char then
          let '(esign, s') := match s' with
                              | String "+" r => ("+", r)
                              | String "-" r => ("-", r)
                              | _ => ("", s')
                              end in
          match scanDigits1 s' with
          | Some (ds, rest) => Some (sign ++ int ++ frac ++ "e" ++ esign ++ ds, rest)
          | None => None
          end
        else Some (sign ++ int ++ frac, s)
      | EmptyString => Some (sign ++ int ++ frac, s)
      end
    end
  end.

Definition stripPrefix (p s : string) : option string :=
  if String.prefix p s then Some (String.substring (String.length p) (String.length s - String.length p) s)
  else None.

Fixpoint parseValue (fuel : nat) (s : string) {struct fuel} : option (json * string) :=
  match fuel with
  | O => None
  | S fuel' =>
    match skipSpace s with
    | EmptyString => None
    | String c s' =>
      if (c =? "{")%char then
        match skipSpace s' with
        | String "}" rest => Some (JObject [], rest)
        | _ => match parseMembers fuel' s' with
               | Some (ms, rest) => Some (JObject ms, rest)
               | None => None
               end
        end
      else if (c =? "[")%char then
        match skipSpace s' with
        | String "]" rest => Some (JArray [], rest)
        | _ => match parseElements fuel' s' with
               | Some (vs, rest) => Some (JArray vs, rest)
               | None => None
               end
        end
      else if (c =? quote)%char then
        match scanString s' with
        | Some (str, rest) => Some (JString str, rest)
        | None => None
        end
      else
        match stripPrefix "true" (String c s'), stripPrefix "false" (String c s'),
              stripPrefix "null" (String c s') with
        | Some rest, _, _ => Some (JBool true, rest)
        | _, Some rest, _ => Some (JBool false, rest)
        | _, _, Some rest => Some (JNull, rest)
        | _, _, _ =>
          match scanNumber (String c s') with
          | Some (lit, rest) => Some (JNumber lit, rest)
          | None => None
          end
        end
    end
  end
with parseElements (fuel : nat) (s : string) {struct fuel} : option (list json * string) :=
  match fuel with
  | O => None
  | S fuel' =>
    match parseValue fuel' s with
    | None => None
    | Some (v, rest) =>
      match skipSpace rest with
      | String "," rest' =>
        match parseElements fuel' rest' with
        | Some (vs, rest'') => Some (v :: vs, rest'')
        | None => None
        end
      | String "]" rest' => Some ([v], rest')
      | _ => None
      end
    end
  end
with parseMembers (fuel : nat) (s : string) {struct fuel} : option (list (string * json) * string) :=
  match fuel with
  | O => None
  | S fuel' =>
    match skipSpace s with
    | String c s' =>
      if (c =? quote)%char then
        match scanString s' with
        | None => None
        | Some (key, rest) =>
          match skipSpace rest with
          | String ":" rest' =>
            match parseValue fuel' rest' with
            | None => None
            | Some (v, rest'') =>
              match skipSpace rest'' with
              | String "," r =>
                match parseMembers fuel' r with
                | Some (ms, r') => Some ((key, v) :: ms, r')
                | None => None
                end
              | String "}" r => Some ([(key, v)], r)
              | _ => None
              end
            end
          | _ => None
          end
        end
      else None
    | EmptyString => None
    end
  end.

(** A whole document: one value, white space around it, nothing else. *)
Definition parseJSON (data : string) : option json :=
  match parseValue (2 * String.length data + 2) data with
  | Some (v, rest) =>
    match skipSpace rest with
    | EmptyString => Some v
    | _ => None
    end
  | None => None
  end.

(** *** Plain strings *)

(** A plain character stands for itself in a JSON string literal: it is a
    printable ASCII character other than the quote and the backslash. *)
Definition plainChar (c : ascii) : bool :=
  (32 <=? nat_of_ascii c)%nat && (nat_of_ascii c <? 127)%nat
  && negb (c =? quote)%char && negb (c =? backslash)%char.

Fixpoint plain (s : string) : bool :=
  match s with
  | String c s' => plainChar c && plain s'
  | EmptyString => true
  end.

(** *** Decoding into the types of the package *)

Definition syntaxError : error := Some (externalError "json: syntax error").
Definition typeError : error := Some (externalError "json: cannot unmarshal value").

(** The decoder goes on after a value of the wrong type and reports the
    first such error at the end. *)
Definition firstError (e1 e2 : error) : error :=
  match e1 with
  | Some _ => e1
  | None => e2
  end.

Definition lower (c : ascii) : ascii :=
  let n := nat_of_ascii c in
  if (65 <=? n)%nat && (n <=? 90)%nat then ascii_of_nat (n + 32) else c.

Fixpoint lowerString (s : string) : string :=
  match s with
  | String c s' => String (lower c) (lowerString s')
  | EmptyString => EmptyString
  end.

(** Field names match keys without regard to the case of ASCII letters. *)
Definition eqFold (key field : string) : bool :=
  String.eqb (lowerString key) (lowerString field).

(** A JSON value into a Go string: [null] leaves the target as it is. *)
Definition decodeString (v : json) (target : string) : string * error :=
  match v with
  | JString s => (s, None)
  | JNull => (target, None)
  | _ => (target, typeError)
  end.

Definition decodeStrings (v : json) (target : list string) : list string * error :=
  match v with
  | JNull => ([], None)
  | JArray vs =>
    fold_right (fun v '(ss, err) =>
                  let '(s, e) := decodeString v "" in (s :: ss, firstError e err))
               ([], None) vs
  | _ => (target, typeError)
  end.

Definition decodeTokenBlob (v : json) (target : tokenBlob) : tokenBlob * error :=
  match v with
  | JNull => (target, None)
  | JObject ms =>
    fold_left (fun '(blob, err) '(key, v) =>
                 if eqFold key "access_token" then
                   let '(s, e) := decodeString v (AccessToken blob) in
                   (mkTokenBlob s, firstError err e)
                 else (blob, err))
              ms (target, None)
  | _ => (target, typeError)
  end.

Definition decodeEntry (v : json) (target : DockerConfigEntry) : DockerConfigEntry * error :=
  match v with
  | JNull => (target, None)
  | JObject ms =>
    fold_left (fun '(entry, err) '(key, v) =>
                 if eqFold key "Username" then
                   let '(s, e) := decodeString v (Username entry) in
                   (mkEntry s (Password entry) (Email entry), firstError err e)
                 else if eqFold key "Password" then
                   let '(s, e) := decodeString v (Password entry) in
                   (mkEntry (Username entry) s (Email entry), firstError err e)
                 else if eqFold key "Email" then
                   let '(s, e) := decodeString v (Email entry) in
                   (mkEntry (Username entry) (Password entry) s, firstError err e)
                 else (entry, err))
              ms (target, None)
  | _ => (target, typeError)
  end.

(** An object into a Go map: a nil target is replaced by a fresh map, and
    every member is decoded into a zero entry and stored under its key. *)
Definition decodeDockerConfig (v : json) (target : DockerConfig) : DockerConfig * error :=
  match v with
  | JNull => (None, None)
  | JObject ms =>
    let '(m, err) :=
      fold_left (fun '(m, err) '(key, v) =>
                   let '(entry, e) := decodeEntry v (mkEntry "" "" "") in
                   (<[key := entry]> m, firstError err e))
                ms (default ∅ target, None) in
    (Some m, err)
  | _ => (target, typeError)
  end.

Definition Unmarshal {T : Type} (decode : json -> T -> T * error)
    (data : string) (target : T) : T * error :=
  match parseJSON data with
  | Some v => decode v target
  | None => (target, syntaxError)
  end.

(** *** White space *)

Definition asciiSpace (c : ascii) : bool :=
  let n := nat_of_ascii c in
  ((9 <=? n)%nat && (n <=? 13)%nat) || (n =? 32)%nat.

Fixpoint trimLeft (s : string) : string :=
  match s with
  | String c s' => if asciiSpace c then trimLeft s' else s
  | EmptyString => s
  end.

Fixpoint trimRight (s : string) : string :=
  match s with
  | String c s' =>
    match trimRight s' with
    | EmptyString => if asciiSpace c then "" else String c ""
    | r => String c r
    end
  | EmptyString => s
  end.

Definition TrimSpace (s : string) : string := trimRight (trimLeft s).

(** *** URLs *)

(** [url.Parse] refuses a URL that holds an ASCII control character. *)
Fixpoint hasCTLByte (s : string) : bool :=
  match s with
  | String c s' =>
    let n := nat_of_ascii c in
    (n <? 32)%nat || (n =? 127)%nat || hasCTLByte s'
  | EmptyString => false
  end.

Definition Parse (url : string) : error :=
  if hasCTLByte url then Some (externalError "net/url: invalid control character in URL")
  else None.

(** *** The runtime *)

(** A host is what the package reads from its machine: the cap of
    [readURL], the HTTP client, the operating system, the answer of the
    [wmic] command and the contents of the product name file. *)
Definition runtime (cap : Z) (client : http_Client) (goos : string)
    (wmic : string * error) (product_name : string * error) : Runtime :=
  {| maxReadLength := cap;
     httpClient := client;
     url_Parse := Parse;
     strings_TrimSpace := TrimSpace;
     runtime_GOOS := goos;
     exec_Command_Output := fun _ _ => wmic;
     ioutil_ReadFile := fun _ => product_name;
     json_Unmarshal_strings := Unmarshal decodeStrings;
     json_Unmarshal_tokenBlob := Unmarshal decodeTokenBlob;
     json_Unmarshal_DockerConfig := Unmarshal decodeDockerConfig |}.

(** A server that answers from a table of documents, by URL, with status
    200, and with status 404 for every other URL. *)
Definition tableServer (docs : list (string * string)) : http_Client :=
  mkClient (fun _ req =>
    match list_find (fun d => String.eqb (fst d) (URL req)) docs with
    | Some (_, (_, body)) => inl (mkResponse 200 (mkBody body None))
    | None => inl (mkResponse 404 (mkBody "" None))
    end).

(** A server that is unreachable for the first [k] requests and answers
    [body] with status 200 from then on. *)
Definition lateServer (k : nat) (body : string) : http_Client :=
  mkClient (fun w _ =>
    if (length w <? k)%nat then inr (externalError "connection refused")
    else inl (mkResponse 200 (mkBody body None))).

(** A Linux host with the given cap and client. *)
Definition linux (cap : Z) (client : http_Client) : Runtime :=
  runtime cap client "linux" ("", Some (externalError "exec: not found"))
          ("Google Compute Engine" ++ LF, None).

(** *** Hosts *)

Definition readOnlyScope : string := "https://www.googleapis.com/auth/devstorage.read_only".

(** A VM whose metadata server has a default service account with the
    storage scope, the token ["T"] and the email ["e@x"], and whose
    [google-dockercfg-url] key names a document that does not exist; it has
    no [google-dockercfg] key. *)
Definition gceDocs : list (string * string) :=
  [ (serviceAccounts, "default/" ++ LF ++ "robot@example.com/" ++ LF);
    (metadataScopes ++ "?alt=json", "[" ++ quoted readOnlyScope ++ "]");
    (metadataToken, tokenBody "T");
    (metadataEmail, "e@x");
    (dockerConfigURLKey, "http://config.example/dockercfg") ].

Definition gceHost : Runtime := linux 1000 (tableServer gceDocs).

(** A VM whose [google-dockercfg-url] key names a bucket. *)
Definition bucketHost : Runtime :=
  linux 1000 (tableServer [ (dockerConfigURLKey, "gs://bucket/dockercfg") ]).

(** The scheme of a URL as [url.Parse] reads it: the letters, digits and
    [+], [-], [.] before the first colon, the first of them a letter, in
    lower case; and the empty string when the URL does not start so. *)
Definition isLetter (c : ascii) : bool :=
  let n := nat_of_ascii c in
  ((65 <=? n)%nat && (n <=? 90)%nat) || ((97 <=? n)%nat && (n <=? 122)%nat).

Fixpoint getScheme (first : bool) (s : string) : option string :=
  match s with
  | EmptyString => None
  | String c s' =>
    if isLetter c then option_map (String c) (getScheme false s')
    else if isDigit c || (c =? "+")%char || (c =? "-")%char || (c =? ".")%char then
      if first then None else option_map (String c) (getScheme false s')
    else if (c =? ":")%char then
      if first then None else Some ""
    else None
  end.

Definition scheme (url : string) : string :=
  lowerString (default "" (getScheme true url)).

(** The client of the package sends through an [http.Transport], which
    refuses a request whose scheme is neither [http] nor [https] before
    anything is sent.  [transportClient docs] does so, and answers the
    other requests from the table [docs]. *)
Definition transportClient (docs : list (string * string)) : http_Client :=
  mkClient (fun w req =>
    let s := scheme (URL req) in
    if String.eqb s "http" || String.eqb s "https" then Do (tableServer docs) w req
    else inr (externalError ("unsupported protocol scheme " ++ quoted s))).

(** A VM whose [google-dockercfg-url] key holds a URL of scheme [httpx]. *)
Definition httpxURL : string := "httpx://config.example/dockercfg".

(** A docker configuration with one entry. *)
Definition httpxConfig : string :=
  "{" ++ quoted "gcr.io" ++ ":{" ++ quoted "username" ++ ":" ++ quoted "u" ++ ","
      ++ quoted "password" ++ ":" ++ quoted "p" ++ "}}".

Definition httpxClient : http_Client :=
  transportClient [ (dockerConfigURLKey, httpxURL) ].

Definition httpxHost : Runtime := linux 1000 httpxClient.

(** A VM without a default service account. *)
Definition noDefaultHost : Runtime :=
  linux 1000 (tableServer [ (serviceAccounts, "robot@example.com/") ]).

(** A VM whose cap is 4 bytes, with a key of 4 bytes and an email of 3. *)
Definition capDocs : list (string * string) :=
  [ (dockerConfigKey, "abcd"); (metadataEmail, "e@x") ].

Definition capClient : http_Client := tableServer capDocs.

Definition capHost : Runtime := linux 4 capClient.

(** A VM whose metadata server cannot be reached for the first 3 requests. *)
Definition lateHost : Runtime := linux 1000 (lateServer 3 ("default/" ++ LF)).

(** A Windows VM, with the output of [wmic] as the command prints it. *)
Definition CR : string := String "013"%char "".

Definition windowsHost : Runtime :=
  runtime 1000 (tableServer gceDocs) "windows"
          ("Model                  " ++ CR ++ CRLF ++ "Google Compute Engine  " ++ CR ++ CRLF
             ++ CR ++ CRLF, None)
          ("", Some (externalError "open: no such file or directory")).

(** A Linux machine that is no such VM: the product name file is missing. *)
Definition otherHost : Runtime :=
  runtime 1000 (tableServer []) "linux" ("", Some (externalError "exec: not found"))
          ("", Some (externalError "open: no such file or directory")).

(** A metadata server that cannot be reached at all, and one that answers
    every request with status 503. *)
Definition deadClient : http_Client :=
  mkClient (fun _ _ => inr (externalError "connection refused")).

Definition deadHost : Runtime := linux 1000 deadClient.

Definition downClient : http_Client :=
  mkClient (fun _ _ => inl (mkResponse 503 (mkBody "" None))).

Definition downHost : Runtime := linux 1000 downClient.

(** A VM whose [google-dockercfg] key and whose URL key lead to the same
    docker configuration. *)
Definition sameDocs : list (string * string) :=
  [ (dockerConfigKey, httpxConfig);
    (dockerConfigURLKey, "https://config.example/dockercfg");
    ("https://config.example/dockercfg", httpxConfig) ].

Definition sameHost : Runtime := linux 1000 (tableServer sameDocs).

(** A VM whose [google-dockercfg] key holds a document that is no JSON. *)
Definition brokenHost : Runtime :=
  linux 1000 (tableServer [ (dockerConfigKey, "{") ]).

(** A VM whose [google-dockercfg] key holds the JSON document [null]. *)
Definition nullClient : http_Client := tableServer [ (dockerConfigKey, "null") ].

Definition nullHost : Runtime := linux 1000 nullClient.

(** DNSPolicy objects over metadata that are strings. *)
Definition policy (generation : Z) (name : string) (domains : list string)
  : dnspolicy.DNSPolicy (TypeMeta := string) (ObjectMetaRest := string)
                        (LabelSelector := string) :=
  dnspolicy.mkDNSPolicy "DNSPolicy" (dnspolicy.mkObjectMeta generation name)
                        (dnspolicy.mkSpec "app=web" (Some domains)).

End Reference.

(** * Properties *)

(** ** The helpers on given inputs *)

Example Split_lines :
  strings_Split ("default/" ++ LF ++ "robot/" ++ LF) LF = ["default/"; "robot/"; ""].
Proof. reflexivity. Qed.

Example Split_empty : strings_Split "" LF = [""].
Proof. reflexivity. Qed.

Example Split_CRLF :
  strings_Split ("Model" ++ CRLF ++ CRLF ++ "Google") CRLF = ["Model"; ""; "Google"].
Proof. reflexivity. Qed.

Example Split_CR_CRLF :
  strings_Split ("Model " ++ Reference.CR ++ CRLF ++ "Google") CRLF
  = ["Model " ++ Reference.CR; "Google"].
Proof. reflexivity. Qed.

Example HasPrefix_http :
  strings_HasPrefix "https://example.com" "http" = true /\
  strings_HasPrefix "gs://bucket" "http" = false /\
  strings_HasPrefix "htt" "http" = false.
Proof. repeat split. Qed.

Example int64_wraps : int64 (2 ^ 63) = (- 2 ^ 63)%Z.
Proof. reflexivity. Qed.

Example TrimSpace_product_name :
  Reference.TrimSpace ("  Google Compute Engine" ++ LF) = "Google Compute Engine".
Proof. reflexivity. Qed.

Example parseJSON_scopes :
  Reference.parseJSON ("[" ++ quoted "a" ++ ", " ++ quoted "b" ++ "]")
  = Some (Reference.JArray [Reference.JString "a"; Reference.JString "b"]).
Proof. reflexivity. Qed.

Example parseJSON_trailing_comma : Reference.parseJSON "[1,]" = None.
Proof. reflexivity. Qed.

Example scheme_of_URLs :
  Reference.scheme "http://metadata.google.internal./computeMetadata/v1/" = "http" /\
  Reference.scheme "HTTPS://config.example/dockercfg" = "https" /\
  Reference.scheme "httpx://config.example/dockercfg" = "httpx" /\
  Reference.scheme "gs://bucket/dockercfg" = "gs" /\
  Reference.scheme "http" = "" /\
  Reference.scheme "1http://config.example" = "".
Proof. repeat split. Qed.

(** ** The retry loop *)

Lemma int64_small z : (0 <= z < 2 ^ 63)%Z -> int64 z = z.
Proof.
  intros H. unfold int64. rewrite Z.mod_small; lia.
Qed.

Lemma delay_pos i : (0 < delay i <= 60 * time_Second)%Z.
Proof.
  unfold delay, time_Millisecond, time_Second.
  assert (0 < 2 ^ Z.of_nat i)%Z by (apply Z.pow_pos_nonneg; lia).
  lia.
Qed.

(** The update of [backoff] in the loop takes [delay i] to [delay (i + 1)];
    the doubling never leaves the range of an int64. *)
Lemma delay_next i :
  (if (maxBackoff <? int64 (delay i * 2))%Z then maxBackoff else int64 (delay i * 2))
  = delay (Datatypes.S i).
Proof.
  pose proof (delay_pos i) as Hd.
  rewrite int64_small by (unfold time_Second in Hd; lia).
  unfold delay in *. rewrite Nat2Z.inj_succ, Z.pow_succ_r by lia.
  assert (0 < 2 ^ Z.of_nat i)%Z by (apply Z.pow_pos_nonneg; lia).
  unfold maxBackoff, time_Minute, time_Millisecond, time_Second in *.
  destruct (_ <? _)%Z eqn:E; lia.
Qed.

Lemma total_delays i k :
  (total (map delay (seq i k)) + sumDelays i = sumDelays (i + k))%Z.
Proof.
  revert i. induction k as [|k IH]; intros i.
  - rewrite Nat.add_0_r. reflexivity.
  - replace (i + Datatypes.S k)%nat with (Datatypes.S i + k)%nat by lia.
    rewrite <- IH. cbn [seq map total fold_right sumDelays].
    unfold total. lia.
Qed.

Section BackoffProperties.
Context {S : Type} (f : S -> (string * error) * S).

Lemma runWithBackoff_from_succeeds v s' k :
  forall i s fuel,
    failsThenSucceeds f k v s s' -> (k < fuel)%nat ->
    runWithBackoff_from fuel f (delay i) s = Some (v, map delay (seq i k), s').
Proof.
  induction k as [|k IH]; intros i s fuel Hf Hfuel;
    (destruct fuel as [|fuel]; [lia|]); simpl in *.
  - rewrite Hf. reflexivity.
  - destruct Hf as (x & e & s1 & Hfs & Hrest). rewrite Hfs.
    rewrite delay_next, (IH (Datatypes.S i) s1 fuel Hrest) by lia.
    reflexivity.
Qed.

Lemma runWithBackoff_from_inv fuel :
  forall backoff s v sleeps s',
    runWithBackoff_from fuel f backoff s = Some (v, sleeps, s') ->
    exists k, (k < fuel)%nat /\ failsThenSucceeds f k v s s'.
Proof.
  induction fuel as [|fuel IH]; intros backoff s v sleeps s' H; [discriminate|].
  simpl in H. destruct (f s) as [[x err] s1] eqn:Hfs. destruct err as [e|].
  - match type of H with
    | match runWithBackoff_from fuel f ?b s1 with _ => _ end = _ =>
      destruct (runWithBackoff_from fuel f b s1) as [[[v0 sl] s2]|] eqn:Hrec;
        [|discriminate]
    end.
    injection H as <- <- <-.
    destruct (IH _ _ _ _ _ Hrec) as (k & Hk & Hf).
    exists (Datatypes.S k). split; [lia|]. simpl. eauto.
  - injection H as <- <- <-. exists 0%nat. split; [lia|exact Hfs].
Qed.

(** An operation that fails in every state keeps the loop going: whatever
    the number of attempts, there is no answer. *)
Lemma runWithBackoff_from_never fuel :
  (forall s, exists x e s1, f s = ((x, Some e), s1)) ->
  forall backoff s, runWithBackoff_from fuel f backoff s = None.
Proof.
  intros Hfail. induction fuel as [|fuel IH]; intros backoff s; [reflexivity|].
  simpl. destruct (Hfail s) as (x & e & s1 & ->). rewrite IH. reflexivity.
Qed.

(** More attempts never change an answer. *)
Lemma runWithBackoff_from_more fuel :
  forall fuel' backoff s r,
    runWithBackoff_from fuel f backoff s = Some r -> (fuel <= fuel')%nat ->
    runWithBackoff_from fuel' f backoff s = Some r.
Proof.
  induction fuel as [|fuel IH]; intros fuel' backoff s r H Hle; [discriminate|].
  destruct fuel' as [|fuel']; [lia|]. simpl in *.
  destruct (f s) as [[x err] s1]. destruct err as [e|]; [|exact H].
  match type of H with
  | match runWithBackoff_from fuel f ?b s1 with _ => _ end = _ =>
    destruct (runWithBackoff_from fuel f b s1) as [r0|] eqn:Hrec; [|discriminate];
      rewrite (IH fuel' b s1 r0 Hrec) by lia
  end.
  exact H.
Qed.

(** C4.  When [f] fails exactly [k] times and then succeeds with [v],
    [runWithBackoff f] returns [v] as soon as it may make [k + 1] attempts;
    it has slept [k] times, the [i]-th time for [min (100ms * 2^i, 60s)],
    which is the sum of these delays in all.  The loop returns on no other
    path: an answer of [runWithBackoff] is always the value of a successful
    attempt of [f]. *)
Theorem runWithBackoff_sleeps (k : nat) (v : string) (s s' : S) :
  failsThenSucceeds f k v s s' ->
  (forall fuel, (k < fuel)%nat ->
     exists sleeps,
       runWithBackoff fuel f s = Some (v, sleeps, s') /\
       length sleeps = k /\
       (forall i, (i < k)%nat ->
          sleeps !! i = Some (Z.min (100 * time_Millisecond * 2 ^ Z.of_nat i)
                                    (60 * time_Second))) /\
       total sleeps = sumDelays k) /\
  (forall fuel v0 sleeps s0,
     runWithBackoff fuel f s = Some (v0, sleeps, s0) ->
     exists k0, (k0 < fuel)%nat /\ failsThenSucceeds f k0 v0 s s0).
Proof.
  intros Hf. split.
  - intros fuel Hfuel. exists (map delay (seq 0 k)). split; [|split; [|split]].
    + unfold runWithBackoff.
      change (100 * time_Millisecond)%Z with (delay 0).
      apply runWithBackoff_from_succeeds; assumption.
    + rewrite length_map, length_seq. reflexivity.
    + intros i Hi. rewrite list_lookup_fmap, lookup_seq_lt by lia. reflexivity.
    + pose proof (total_delays 0 k) as Ht. simpl in Ht. lia.
  - intros fuel v0 sleeps s0 H. unfold runWithBackoff in H.
    exact (runWithBackoff_from_inv _ _ _ _ _ _ H).
Qed.

End BackoffProperties.

(** ** The reference decoder on the token body *)

Section ReferenceDecoder.
Import Reference.

Lemma scanString_plain (T rest : string) :
  plain T = true ->
  scanString (T ++ String quote rest) = Some (T, rest).
Proof.
  induction T as [|c T IH]; intros HT; simpl in *.
  - reflexivity.
  - apply andb_true_iff in HT as [Hc HT].
    unfold plainChar in Hc.
    apply andb_true_iff in Hc as [Hc Hb]. apply andb_true_iff in Hc as [Hc Hq].
    apply andb_true_iff in Hc as [Hlo Hhi].
    apply negb_true_iff in Hq, Hb. rewrite Hq, Hb.
    apply Nat.leb_le in Hlo.
    destruct (nat_of_ascii c <? 32)%nat eqn:E; [apply Nat.ltb_lt in E; lia|].
    rewrite (IH HT). reflexivity.
Qed.

Lemma append_quote_brace (T : string) :
  (T ++ String quote "") ++ "}" = T ++ String quote "}".
Proof.
  induction T as [|c T IH]; [reflexivity|].
  change (String c ((T ++ String quote "") ++ "}") = String c (T ++ String quote "}")).
  rewrite IH. reflexivity.
Qed.

(** The token body, character by character. *)
Lemma tokenBody_unfold (T : string) :
  tokenBody T =
  String "{" (String quote ("access_token" ++
    String quote (String ":" (String quote (T ++ String quote "}"))))).
Proof.
  rewrite <- append_quote_brace. reflexivity.
Qed.

Lemma parseValue_tokenBody (T : string) (fuel : nat) :
  plain T = true ->
  parseValue (3 + fuel) (tokenBody T) = Some (JObject [("access_token", JString T)], "").
Proof.
  intros HT. rewrite tokenBody_unfold. cbn.
  rewrite (scanString_plain "access_token" _ eq_refl). cbn.
  rewrite (scanString_plain _ _ HT). reflexivity.
Qed.

(** The reference decoder turns the token body of a plain [T] into the
    blob whose token is [T]. *)
Lemma Unmarshal_tokenBody (T : string) :
  plain T = true ->
  Unmarshal decodeTokenBlob (tokenBody T) (mkTokenBlob "") = (mkTokenBlob T, None).
Proof.
  intros HT. unfold Unmarshal, parseJSON.
  replace (2 * String.length (tokenBody T) + 2)%nat
    with (3 + (2 * String.length (tokenBody T) - 1))%nat
    by (rewrite tokenBody_unfold; simpl; lia).
  rewrite (parseValue_tokenBody _ _ HT). reflexivity.
Qed.

End ReferenceDecoder.

Section Properties.
Context `{RT : Runtime}.

(** ** The metadata client *)

Lemma readURL_parse_error url client header w err :
  url_Parse url = Some err ->
  readURL url client header w = (("", Some err), w).
Proof.
  intros Hp. unfold readURL, http_NewRequest. rewrite Hp. reflexivity.
Qed.

Lemma readURL_unfold url client header w :
  url_Parse url = None ->
  readURL url client header w =
  (match Do client w (requestOf url header) with
   | inr err => ("", Some err)
   | inl resp =>
     if negb (StatusCode resp =? http_StatusOK)%Z then
       ("", Some (HTTPError (StatusCode resp) url))
     else
       let '(contents, err, N) := ReadAll_LimitedReader (resp_Body resp) maxReadLength in
       match err with
       | Some e => ("", Some e)
       | None => if (N <=? 0)%Z then ("", Some errReadLimit) else (contents, None)
       end
   end, requestOf url header :: w).
Proof.
  intros Hp. unfold readURL, http_NewRequest. rewrite Hp.
  assert (Hreq : match header with
                 | Some h => mkRequest (Method (mkRequest "GET" url ∅))
                                       (URL (mkRequest "GET" url ∅)) h
                 | None => mkRequest "GET" url ∅
                 end = requestOf url header) by (destruct header; reflexivity).
  rewrite Hreq. unfold bind, client_Do.
  destruct (Do client w (requestOf url header)) as [resp|err]; [|reflexivity].
  destruct (negb (StatusCode resp =? http_StatusOK)%Z); [reflexivity|].
  destruct (ReadAll_LimitedReader (resp_Body resp) maxReadLength) as [[contents err] N].
  destruct err; [reflexivity|].
  destruct (N <=? 0)%Z; reflexivity.
Qed.

(** What the limited read gives, by the length of the body. *)
Lemma ReadAll_at_least body n :
  (n <= Z.of_nat (String.length (body_data body)))%Z ->
  exists contents N, ReadAll_LimitedReader body n = (contents, None, N) /\ (N <= 0)%Z.
Proof.
  intros Hlen. unfold ReadAll_LimitedReader.
  destruct (n <=? 0)%Z eqn:E0.
  - exists "", n. split; [reflexivity|lia].
  - destruct (n <=? Z.of_nat (String.length (body_data body)))%Z eqn:E1; [|lia].
    eexists _, 0%Z. split; [reflexivity|lia].
Qed.

Lemma ReadAll_below body n :
  (Z.of_nat (String.length (body_data body)) < n)%Z ->
  exists N, ReadAll_LimitedReader body n = (body_data body, body_failure body, N) /\ (0 < N)%Z.
Proof.
  intros Hlen. unfold ReadAll_LimitedReader.
  destruct (n <=? 0)%Z eqn:E0; [lia|].
  destruct (n <=? Z.of_nat (String.length (body_data body)))%Z eqn:E1; [lia|].
  eexists. split; [reflexivity|lia].
Qed.

Lemma readURL_status url client header w resp :
  url_Parse url = None ->
  Do client w (requestOf url header) = inl resp ->
  StatusCode resp <> http_StatusOK ->
  readURL url client header w =
  (("", Some (HTTPError (StatusCode resp) url)), requestOf url header :: w).
Proof.
  intros Hp Hdo Hs. rewrite (readURL_unfold _ _ _ _ Hp), Hdo.
  destruct (StatusCode resp =? http_StatusOK)%Z eqn:E; [lia|reflexivity].
Qed.

Lemma readURL_limit url client header w resp :
  url_Parse url = None ->
  Do client w (requestOf url header) = inl resp ->
  StatusCode resp = http_StatusOK ->
  (maxReadLength <= Z.of_nat (String.length (body_data (resp_Body resp))))%Z ->
  readURL url client header w = (("", Some errReadLimit), requestOf url header :: w).
Proof.
  intros Hp Hdo Hs Hlen. rewrite (readURL_unfold _ _ _ _ Hp), Hdo, Hs. simpl.
  destruct (ReadAll_at_least _ _ Hlen) as (contents & N & -> & HN).
  destruct (N <=? 0)%Z eqn:E; [reflexivity|lia].
Qed.

Lemma readURL_body url client header w resp :
  url_Parse url = None ->
  Do client w (requestOf url header) = inl resp ->
  StatusCode resp = http_StatusOK ->
  (Z.of_nat (String.length (body_data (resp_Body resp))) < maxReadLength)%Z ->
  readURL url client header w =
  (match body_failure (resp_Body resp) with
   | Some e => ("", Some e)
   | None => (body_data (resp_Body resp), None)
   end, requestOf url header :: w).
Proof.
  intros Hp Hdo Hs Hlen. rewrite (readURL_unfold _ _ _ _ Hp), Hdo, Hs. simpl.
  destruct (ReadAll_below _ _ Hlen) as (N & -> & HN).
  destruct (body_failure (resp_Body resp)); [reflexivity|].
  destruct (N <=? 0)%Z eqn:E; [lia|reflexivity].
Qed.

(** The wire after [readURL]: at most one request more, the one it built. *)
Lemma readURL_wire url client header w :
  snd (readURL url client header w) = w \/
  snd (readURL url client header w) = requestOf url header :: w.
Proof.
  destruct (url_Parse url) as [e|] eqn:Hp.
  - left. rewrite (readURL_parse_error _ _ _ _ _ Hp). reflexivity.
  - right. rewrite (readURL_unfold _ _ _ _ Hp). reflexivity.
Qed.

(** A successful [readURL] got a 200 response whose body ended before the cap. *)
Lemma readURL_success_inv url client header w contents w' :
  readURL url client header w = ((contents, None), w') ->
  url_Parse url = None /\ w' = requestOf url header :: w /\
  exists resp, Do client w (requestOf url header) = inl resp /\
    StatusCode resp = http_StatusOK /\
    resp_Body resp = mkBody contents None /\
    (Z.of_nat (String.length contents) < maxReadLength)%Z.
Proof.
  intros H.
  destruct (url_Parse url) as [e|] eqn:Hp.
  { rewrite (readURL_parse_error _ _ _ _ _ Hp) in H. discriminate. }
  split; [reflexivity|].
  destruct (Do client w (requestOf url header)) as [resp|err] eqn:Hdo.
  2:{ rewrite (readURL_unfold _ _ _ _ Hp), Hdo in H. discriminate. }
  destruct (Z.eq_dec (StatusCode resp) http_StatusOK) as [Hs|Hs].
  2:{ rewrite (readURL_status _ _ _ _ _ Hp Hdo Hs) in H. discriminate. }
  destruct (Z_lt_le_dec (Z.of_nat (String.length (body_data (resp_Body resp)))) maxReadLength)
    as [Hlen|Hlen].
  2:{ rewrite (readURL_limit _ _ _ _ _ Hp Hdo Hs Hlen) in H. discriminate. }
  rewrite (readURL_body _ _ _ _ _ Hp Hdo Hs Hlen) in H.
  destruct (resp_Body resp) as [data failure] eqn:Hb. simpl in *.
  destruct failure; [discriminate|].
  injection H as <- <-. split; [reflexivity|].
  exists resp. rewrite Hb. auto.
Qed.

(** ** The metadata client: what [readURL] returns *)

(** C5, as amended.  [readURL] returns an error and no bytes in these
    cases: the URL does not parse or the client fails (the error is
    returned as it is); the status is not 200 (an [HTTPError] with that
    status and the requested URL, whatever the body is); the status is 200
    and the body has [maxReadLength] bytes or more (the read limit error:
    reaching the cap is enough, the body need not exceed it); the status is
    200 and the body breaks off with a read error before the cap.  In the
    remaining case, status 200 and a body that ends before the cap, it
    returns the bytes of the body. *)
Theorem readURL_outcomes (url : string) (client : http_Client)
    (header : option http_Header) (w : Wire) :
  (forall err, url_Parse url = Some err ->
     readURL url client header w = (("", Some err), w)) /\
  (url_Parse url = None ->
   (forall err, Do client w (requestOf url header) = inr err ->
      fst (readURL url client header w) = ("", Some err)) /\
   (forall resp, Do client w (requestOf url header) = inl resp ->
      let len := Z.of_nat (String.length (body_data (resp_Body resp))) in
      (StatusCode resp <> 200%Z ->
         fst (readURL url client header w) = ("", Some (HTTPError (StatusCode resp) url))) /\
      (StatusCode resp = 200%Z -> (maxReadLength <= len)%Z ->
         fst (readURL url client header w) = ("", Some errReadLimit)) /\
      (StatusCode resp = 200%Z -> (len < maxReadLength)%Z ->
         forall err, body_failure (resp_Body resp) = Some err ->
         fst (readURL url client header w) = ("", Some err)) /\
      (StatusCode resp = 200%Z -> (len < maxReadLength)%Z ->
         body_failure (resp_Body resp) = None ->
         fst (readURL url client header w) = (body_data (resp_Body resp), None)))).
Proof.
  split; [intros err Hp; exact (readURL_parse_error _ _ _ _ _ Hp)|].
  intros Hp. split.
  - intros err Hdo. rewrite (readURL_unfold _ _ _ _ Hp), Hdo. reflexivity.
  - intros resp Hdo len. repeat split.
    + intros Hs. rewrite (readURL_status _ _ _ _ _ Hp Hdo Hs). reflexivity.
    + intros Hs Hlen. rewrite (readURL_limit _ _ _ _ _ Hp Hdo Hs Hlen). reflexivity.
    + intros Hs Hlen err Hf.
      rewrite (readURL_body _ _ _ _ _ Hp Hdo Hs Hlen), Hf. reflexivity.
    + intros Hs Hlen Hf.
      rewrite (readURL_body _ _ _ _ _ Hp Hdo Hs Hlen), Hf. reflexivity.
Qed.

(** C10.  A successful [readURL] returns strictly fewer than
    [maxReadLength] bytes, and a 200 response whose body has exactly
    [maxReadLength] bytes fails with the read limit error, also when the
    body ends there: the largest body that can be used has
    [maxReadLength - 1] bytes. *)
Theorem readURL_below_cap (url : string) (client : http_Client)
    (header : option http_Header) (w : Wire) :
  (forall contents w',
     readURL url client header w = ((contents, None), w') ->
     (Z.of_nat (String.length contents) < maxReadLength)%Z) /\
  (forall resp,
     url_Parse url = None ->
     Do client w (requestOf url header) = inl resp ->
     StatusCode resp = 200%Z ->
     Z.of_nat (String.length (body_data (resp_Body resp))) = maxReadLength ->
     fst (readURL url client header w) = ("", Some errReadLimit)) /\
  (forall resp,
     url_Parse url = None ->
     Do client w (requestOf url header) = inl resp ->
     StatusCode resp = 200%Z ->
     body_failure (resp_Body resp) = None ->
     Z.of_nat (String.length (body_data (resp_Body resp))) = (maxReadLength - 1)%Z ->
     fst (readURL url client header w) = (body_data (resp_Body resp), None)).
Proof.
  repeat split.
  - intros contents w' H.
    destruct (readURL_success_inv _ _ _ _ _ _ H) as (_ & _ & resp & _ & _ & _ & Hlen).
    exact Hlen.
  - intros resp Hp Hdo Hs Hlen.
    rewrite (readURL_limit _ _ _ _ _ Hp Hdo Hs); [reflexivity|lia].
  - intros resp Hp Hdo Hs Hf Hlen.
    rewrite (readURL_body _ _ _ _ _ Hp Hdo Hs), Hf; [reflexivity|lia].
Qed.

(** ** Enablement *)

Lemma defaultServiceAccountExists_iff value :
  defaultServiceAccountExists value = true <->
  exists sa, sa ∈ strings_Split value LF /\ strings_TrimSpace sa = defaultServiceAccount.
Proof.
  unfold defaultServiceAccountExists. rewrite existsb_exists.
  split; intros (sa & Hin & Heq); exists sa.
  - split; [apply list_elem_of_In, Hin|apply String.eqb_eq, Heq].
  - split; [apply list_elem_of_In, Hin|apply String.eqb_eq, Heq].
Qed.

Lemma hasScope_iff scopes :
  hasScope scopes = true <->
  exists v, v ∈ scopes /\
    (strings_HasPrefix v storageScopePrefix = true \/
     strings_HasPrefix v cloudPlatformScopePrefix = true).
Proof.
  unfold hasScope. rewrite existsb_exists.
  split; intros (v & Hin & Hp); exists v.
  - split; [apply list_elem_of_In, Hin|apply orb_true_iff, Hp].
  - split; [apply list_elem_of_In, Hin|apply orb_true_iff, Hp].
Qed.

(** C3.  Let the fetch of the service account listing succeed at its
    attempt [k1 + 1] with [value].  If no line of [value], trimmed, is
    ["default/"], then [HasStorageScope] returns false.  If one is, and the
    fetch of the scopes succeeds at its attempt [k2 + 1] with [value2], then
    [HasStorageScope] returns true exactly when [value2] decodes without
    error to a list of scopes one of which starts with the storage prefix
    or with the cloud platform prefix; so it returns false when the
    decoding fails and when the list is empty or holds no such scope.  The
    result is reached as soon as the loops may make that many attempts. *)
Theorem HasStorageScope_decides (w w1 : Wire) (k1 : nat) (value : string) :
  failsThenSucceeds fetchServiceAccounts k1 value w w1 ->
  ((forall sa, sa ∈ strings_Split value LF ->
      strings_TrimSpace sa <> defaultServiceAccount) ->
   forall fuel, (k1 < fuel)%nat ->
     HasStorageScope fuel w = Some (false, map delay (seq 0 k1), w1)) /\
  ((exists sa, sa ∈ strings_Split value LF /\
      strings_TrimSpace sa = defaultServiceAccount) ->
   forall k2 value2 w2,
     failsThenSucceeds fetchScopes k2 value2 w1 w2 ->
     forall fuel, (k1 < fuel)%nat -> (k2 < fuel)%nat ->
     exists b,
       HasStorageScope fuel w =
         Some (b, (map delay (seq 0 k1) ++ map delay (seq 0 k2))%list, w2) /\
       (b = true <->
        exists scopes v,
          json_Unmarshal_strings value2 [] = (scopes, None) /\ v ∈ scopes /\
          (strings_HasPrefix v storageScopePrefix = true \/
           strings_HasPrefix v cloudPlatformScopePrefix = true)) /\
       (forall scopes e,
          json_Unmarshal_strings value2 [] = (scopes, Some e) -> b = false) /\
       (json_Unmarshal_strings value2 [] = ([], None) -> b = false)).
Proof.
  intros H1.
  assert (R1 : forall fuel, (k1 < fuel)%nat ->
            runWithBackoff fuel fetchServiceAccounts w =
            Some (value, map delay (seq 0 k1), w1)).
  { intros fuel Hfuel. unfold runWithBackoff.
    change (100 * time_Millisecond)%Z with (delay 0).
    apply runWithBackoff_from_succeeds; assumption. }
  split.
  - intros Habsent fuel Hfuel. unfold HasStorageScope. rewrite (R1 fuel Hfuel).
    destruct (defaultServiceAccountExists value) eqn:E; [|reflexivity].
    apply defaultServiceAccountExists_iff in E. destruct E as (sa & Hin & Heq).
    destruct (Habsent sa Hin Heq).
  - intros Hpresent k2 value2 w2 H2 fuel Hf1 Hf2.
    apply defaultServiceAccountExists_iff in Hpresent.
    unfold HasStorageScope. rewrite (R1 fuel Hf1), Hpresent. simpl negb. cbv iota.
    assert (R2 : runWithBackoff fuel fetchScopes w1 =
                 Some (value2, map delay (seq 0 k2), w2)).
    { unfold runWithBackoff. change (100 * time_Millisecond)%Z with (delay 0).
      apply runWithBackoff_from_succeeds; assumption. }
    rewrite R2.
    destruct (json_Unmarshal_strings value2 []) as [scopes [e|]] eqn:Hj.
    + exists false. split; [reflexivity|]. split; [|split].
      * split; [discriminate|]. intros (? & ? & Heq & _). discriminate.
      * reflexivity.
      * reflexivity.
    + exists (hasScope scopes). split; [reflexivity|]. split; [|split].
      * rewrite hasScope_iff. split.
        -- intros (v & Hv). exists scopes, v. split; [reflexivity|exact Hv].
        -- intros (scopes' & v & Heq & Hv). injection Heq as <-. exists v. exact Hv.
      * intros ? ? Heq. discriminate.
      * intros Heq. injection Heq as ->. reflexivity.
Qed.

(** C7.  On a host that is not Windows, [OnGCEVM] is true exactly when the
    product name file can be read and its contents, trimmed, are ["Google"]
    or ["Google Compute Engine"].  On Windows it is true exactly when the
    [wmic] command succeeds, its trimmed output has exactly two lines, and
    the second one is one of these two names.  A file that cannot be read,
    a command that fails and an output that has not two lines give false;
    [OnGCEVM] has no error result. *)
Theorem OnGCEVM_iff :
  (runtime_GOOS <> "windows" ->
   (OnGCEVM = true <->
    exists data,
      ioutil_ReadFile gceProductNameFile = (data, None) /\
      (strings_TrimSpace data = "Google" \/
       strings_TrimSpace data = "Google Compute Engine")) /\
   (forall data e, ioutil_ReadFile gceProductNameFile = (data, Some e) ->
      OnGCEVM = false)) /\
  (runtime_GOOS = "windows" ->
   (OnGCEVM = true <->
    exists data header name,
      exec_Command_Output "wmic" ["computersystem"; "get"; "model"] = (data, None) /\
      strings_Split (strings_TrimSpace data) CRLF = [header; name] /\
      (name = "Google" \/ name = "Google Compute Engine")) /\
   (forall data e,
      exec_Command_Output "wmic" ["computersystem"; "get"; "model"] = (data, Some e) ->
      OnGCEVM = false) /\
   (forall data,
      exec_Command_Output "wmic" ["computersystem"; "get"; "model"] = (data, None) ->
      length (strings_Split (strings_TrimSpace data) CRLF) <> 2%nat ->
      OnGCEVM = false)).
Proof.
  split.
  - intros Hos. apply String.eqb_neq in Hos. unfold OnGCEVM. rewrite Hos.
    destruct (ioutil_ReadFile gceProductNameFile) as [data [e|]] eqn:Hr.
    + split.
      * split; [discriminate|]. intros (? & Heq & _). discriminate.
      * reflexivity.
    + split.
      * rewrite orb_true_iff, !String.eqb_eq. split.
        -- intros H. exists data. split; [reflexivity|exact H].
        -- intros (data' & Heq & H). injection Heq as <-. exact H.
      * intros ? ? Heq. discriminate.
  - intros Hos. apply String.eqb_eq in Hos. unfold OnGCEVM. rewrite Hos.
    destruct (exec_Command_Output "wmic" ["computersystem"; "get"; "model"])
      as [data [e|]] eqn:Hr.
    + split; [|split].
      * split; [discriminate|]. intros (? & ? & ? & Heq & _). discriminate.
      * reflexivity.
      * intros ? Heq. discriminate.
    + split; [|split].
      * destruct (strings_Split (strings_TrimSpace data) CRLF)
          as [|header [|name [|? ?]]] eqn:Hs.
        -- split; [discriminate|]. intros (? & ? & ? & Heq & Hs' & _).
           injection Heq as <-. rewrite Hs in Hs'. discriminate.
        -- split; [discriminate|]. intros (? & ? & ? & Heq & Hs' & _).
           injection Heq as <-. rewrite Hs in Hs'. discriminate.
        -- rewrite orb_true_iff, !String.eqb_eq. split.
           ++ intros H. exists data, header, name. rewrite Hs. auto.
           ++ intros (data' & header' & name' & Heq & Hs' & H).
              injection Heq as <-. rewrite Hs in Hs'. injection Hs' as <- <-. exact H.
        -- split; [discriminate|]. intros (? & ? & ? & Heq & Hs' & _).
           injection Heq as <-. rewrite Hs in Hs'. discriminate.
      * intros ? ? Heq. discriminate.
      * intros data' Heq Hlen. injection Heq as <-.
        destruct (strings_Split (strings_TrimSpace data) CRLF)
          as [|header [|name [|? ?]]]; simpl in Hlen; try reflexivity.
        destruct (Hlen eq_refl).
Qed.

(** ** Reading a docker configuration *)

(** A fetch that fails makes [ReadDockerConfigFileFromURL] return the nil
    map and the nil error: the error of [readURL] does not leave the [if]. *)
Lemma ReadDockerConfigFileFromURL_fetch_failure url client header w x e w' :
  readURL url client header w = ((x, Some e), w') ->
  ReadDockerConfigFileFromURL url client header w = ((None, None), w').
Proof.
  intros H. unfold ReadDockerConfigFileFromURL, bind. rewrite H. reflexivity.
Qed.

Lemma ReadDockerConfigFileFromURL_fetched url client header w contents w' :
  readURL url client header w = ((contents, None), w') ->
  ReadDockerConfigFileFromURL url client header w =
  (readDockerConfigFileFromBytes contents, w').
Proof.
  intros H. unfold ReadDockerConfigFileFromURL, bind. rewrite H. reflexivity.
Qed.

Lemma ReadDockerConfigFileFromURL_wire url client header w :
  snd (ReadDockerConfigFileFromURL url client header w) = snd (readURL url client header w).
Proof.
  unfold ReadDockerConfigFileFromURL, bind.
  destruct (readURL url client header w) as [[contents [e|]] w']; reflexivity.
Qed.

(** A document that does not decode gives the nil map and an error. *)
Lemma readDockerConfigFileFromBytes_failure contents cfg e :
  json_Unmarshal_DockerConfig contents None = (cfg, Some e) ->
  readDockerConfigFileFromBytes contents =
  (None, Some (errorString "error occurred while trying to unmarshal json")).
Proof.
  intros H. unfold readDockerConfigFileFromBytes. rewrite H. reflexivity.
Qed.

(** ** The providers on failure *)

(** The decoding failure reaches the [err != nil] branch of the key-based
    provider, which answers the empty map. *)
Lemma ProvideDockerConfigKey_parse_failure image w contents w' cfg e :
  readURL dockerConfigKey httpClient (Some metadataHeader) w = ((contents, None), w') ->
  json_Unmarshal_DockerConfig contents None = (cfg, Some e) ->
  ProvideDockerConfigKey image w = (Some ∅, w').
Proof.
  intros Hr Hj. unfold ProvideDockerConfigKey, bind.
  rewrite (ReadDockerConfigFileFromURL_fetched _ _ _ _ _ _ Hr).
  rewrite (readDockerConfigFileFromBytes_failure _ _ _ Hj). reflexivity.
Qed.

(** Every failure of the token provider answers the empty map. *)
Lemma ProvideContainerRegistry_failure image w :
  (forall x e w1,
     readURL metadataToken httpClient (Some metadataHeader) w = ((x, Some e), w1) ->
     ProvideContainerRegistry image w = (Some ∅, w1)) /\
  (forall body w1 x e w2,
     readURL metadataToken httpClient (Some metadataHeader) w = ((body, None), w1) ->
     readURL metadataEmail httpClient (Some metadataHeader) w1 = ((x, Some e), w2) ->
     ProvideContainerRegistry image w = (Some ∅, w2)) /\
  (forall body w1 email w2 blob e,
     readURL metadataToken httpClient (Some metadataHeader) w = ((body, None), w1) ->
     readURL metadataEmail httpClient (Some metadataHeader) w1 = ((email, None), w2) ->
     json_Unmarshal_tokenBlob body (mkTokenBlob "") = (blob, Some e) ->
     ProvideContainerRegistry image w = (Some ∅, w2)).
Proof.
  unfold ProvideContainerRegistry, bind. repeat split.
  - intros x e w1 H1. rewrite H1. reflexivity.
  - intros body w1 x e w2 H1 H2. rewrite H1, H2. reflexivity.
  - intros body w1 email w2 blob e H1 H2 H3. rewrite H1, H2, H3. reflexivity.
Qed.

(** The copy made by the [Provide] methods of package [gcp] is the map it is
    given, and the empty map for the nil map. *)
Lemma copyDockerConfig_spec gcpCfg :
  copyDockerConfig gcpCfg = Some (default ∅ gcpCfg).
Proof.
  unfold copyDockerConfig. f_equal.
  apply (map_fold_weak_ind (fun r m => r = m)); [reflexivity|].
  intros key [u p e] m r _ ->. reflexivity.
Qed.

(** C1, at the input where the code departs from it.  When the fetch of the
    [google-dockercfg] key fails, [ProvideDockerConfigKey] returns the nil
    map, not the empty map; and so does [ProvideDockerConfigURLKey] when
    the fetch of the document behind the URL fails.  The error of
    [readURL] is lost in [ReadDockerConfigFileFromURL], so the branch that
    answers the empty map is not taken. *)
Theorem Provide_fetch_failure_nil (image : string) (w : Wire) :
  (forall x e w1,
     readURL dockerConfigKey httpClient (Some metadataHeader) w = ((x, Some e), w1) ->
     ProvideDockerConfigKey image w = (None, w1)) /\
  (forall url w1 x e w2,
     readURL dockerConfigURLKey httpClient (Some metadataHeader) w = ((url, None), w1) ->
     strings_HasPrefix url "http" = true ->
     readURL url httpClient None w1 = ((x, Some e), w2) ->
     ProvideDockerConfigURLKey image w = (None, w2)).
Proof.
  split.
  - intros x e w1 H. unfold ProvideDockerConfigKey, bind.
    rewrite (ReadDockerConfigFileFromURL_fetch_failure _ _ _ _ _ _ _ H). reflexivity.
  - intros url w1 x e w2 H1 Hp H2. unfold ProvideDockerConfigURLKey, bind.
    rewrite H1, Hp.
    rewrite (ReadDockerConfigFileFromURL_fetch_failure _ _ _ _ _ _ _ H2). reflexivity.
Qed.

(** ** The token provider *)

Lemma lookup_foldl_insert (entry : DockerConfigEntry) (keys : list string) :
  forall (m : gmap string DockerConfigEntry) (k : string),
    foldl (fun cfg k => <[k := entry]> cfg) m keys !! k =
    if decide (k ∈ keys) then Some entry else m !! k.
Proof.
  induction keys as [|a keys IH]; intros m k; simpl.
  - destruct (decide (k ∈ [])) as [Hin|_]; [inversion Hin|reflexivity].
  - rewrite IH.
    destruct (decide (k ∈ keys)) as [Hin|Hnin].
    + rewrite decide_True by (right; exact Hin). reflexivity.
    + destruct (decide (a = k)) as [->|Hne].
      * rewrite decide_True by left. apply lookup_insert_eq.
      * rewrite lookup_insert_ne by exact Hne.
        rewrite decide_False; [reflexivity|].
        intros Hin. apply elem_of_cons in Hin as [->|Hin]; [destruct (Hne eq_refl)|auto].
Qed.

Lemma ProvideContainerRegistry_success image w body w1 email w2 blob :
  readURL metadataToken httpClient (Some metadataHeader) w = ((body, None), w1) ->
  readURL metadataEmail httpClient (Some metadataHeader) w1 = ((email, None), w2) ->
  json_Unmarshal_tokenBlob body (mkTokenBlob "") = (blob, None) ->
  ProvideContainerRegistry image w =
  (Some (foldl (fun cfg k => <[k := mkEntry "_token" (AccessToken blob) email]> cfg)
               ∅ containerRegistryUrls), w2).
Proof.
  intros H1 H2 H3. unfold ProvideContainerRegistry, bind.
  rewrite H1, H2, H3. reflexivity.
Qed.

(** C2.  When the token endpoint returns the body [{"access_token":"T"}],
    which the JSON decoder turns into a blob whose token is [T], and the
    email endpoint returns [email], [ProvideContainerRegistry] returns a
    map whose keys are exactly the four registry host patterns and which
    maps each of them to the entry with user name ["_token"], password [T]
    and that email. *)
Theorem ProvideContainerRegistry_token (image T email : string) (w w1 w2 : Wire) :
  readURL metadataToken httpClient (Some metadataHeader) w = ((tokenBody T, None), w1) ->
  readURL metadataEmail httpClient (Some metadataHeader) w1 = ((email, None), w2) ->
  json_Unmarshal_tokenBlob (tokenBody T) (mkTokenBlob "") = (mkTokenBlob T, None) ->
  exists cfg : gmap string DockerConfigEntry,
    ProvideContainerRegistry image w = (Some cfg, w2) /\
    dom cfg = {[ "container.cloud.google.com"; "gcr.io"; "*.gcr.io"; "*.pkg.dev" ]} /\
    (forall k, k ∈ containerRegistryUrls ->
       cfg !! k = Some (mkEntry "_token" T email)) /\
    (forall k, k ∉ containerRegistryUrls -> cfg !! k = None).
Proof.
  intros H1 H2 H3.
  rewrite (ProvideContainerRegistry_success image _ _ _ _ _ _ H1 H2 H3).
  eexists. split; [reflexivity|]. split; [|split].
  - unfold containerRegistryUrls. simpl foldl.
    rewrite !dom_insert_L, dom_empty_L. set_solver.
  - intros k Hk. rewrite lookup_foldl_insert, decide_True by exact Hk. reflexivity.
  - intros k Hk. rewrite lookup_foldl_insert, decide_False by exact Hk.
    apply lookup_empty.
Qed.

(** ** The URL-key provider *)

(** The gate of the URL-key provider.  Let the [google-dockercfg-url] key
    hold [u].  When [u] does not start with [http], no further request is
    handed to the client and the provider returns the empty map; when it
    does, the provider reads the document at [u], and the one request this
    hands to the client, if [u] parses as a URL, is a GET of [u] whose
    header is empty, so it carries no [Metadata-Flavor] entry.  Hence a
    request beyond the metadata lookup is for [u], has no metadata header,
    and is made only if [u] starts with [http]. *)
Theorem ProvideDockerConfigURLKey_fetches (image u : string) (w w1 : Wire) :
  readURL dockerConfigURLKey httpClient (Some metadataHeader) w = ((u, None), w1) ->
  (strings_HasPrefix u "http" = false ->
     ProvideDockerConfigURLKey image w = (Some ∅, w1)) /\
  (strings_HasPrefix u "http" = true ->
     snd (ProvideDockerConfigURLKey image w) = snd (readURL u httpClient None w1) /\
     (url_Parse u = None ->
        snd (ProvideDockerConfigURLKey image w) = mkRequest "GET" u ∅ :: w1) /\
     (forall e, url_Parse u = Some e ->
        snd (ProvideDockerConfigURLKey image w) = w1)) /\
  (forall req, req ∈ snd (ProvideDockerConfigURLKey image w) -> req ∉ w1 ->
     strings_HasPrefix u "http" = true /\ URL req = u /\
     Header req !! "Metadata-Flavor" = None).
Proof.
  intros H1.
  assert (Hwire : strings_HasPrefix u "http" = true ->
                  snd (ProvideDockerConfigURLKey image w) = snd (readURL u httpClient None w1)).
  { intros Hp. unfold ProvideDockerConfigURLKey, bind. rewrite H1, Hp.
    rewrite <- ReadDockerConfigFileFromURL_wire.
    destruct (ReadDockerConfigFileFromURL u httpClient None w1) as [[cfg [e|]] w2];
      reflexivity. }
  assert (Hno : strings_HasPrefix u "http" = false ->
                ProvideDockerConfigURLKey image w = (Some ∅, w1)).
  { intros Hp. unfold ProvideDockerConfigURLKey, bind. rewrite H1, Hp. reflexivity. }
  split; [exact Hno|]. split.
  - intros Hp. split; [exact (Hwire Hp)|]. split.
    + intros Hparse. rewrite (Hwire Hp), (readURL_unfold _ _ _ _ Hparse). reflexivity.
    + intros e Hparse. rewrite (Hwire Hp), (readURL_parse_error _ _ _ _ _ Hparse).
      reflexivity.
  - intros req Hin Hnin.
    destruct (strings_HasPrefix u "http") eqn:Hp.
    + split; [reflexivity|]. rewrite (Hwire eq_refl) in Hin.
      destruct (readURL_wire u httpClient None w1) as [Hw|Hw]; rewrite Hw in Hin.
      * destruct (Hnin Hin).
      * apply elem_of_cons in Hin as [->|Hin]; [|destruct (Hnin Hin)].
        split; [reflexivity|]. apply lookup_empty.
    + rewrite (Hno eq_refl) in Hin. destruct (Hnin Hin).
Qed.

(** C6, at the input where the code departs from it.  Let the
    [google-dockercfg-url] key hold [u].  When [u] does not start with
    [http], the provider hands no further request to the client and returns
    the empty map, as the claim says.  When [u] starts with [http] and the
    client refuses the request for it, as the client of the package does for
    a scheme that is neither http nor https, no document is fetched, the
    one request handed to the client is a GET of [u] with an empty header,
    and the provider returns the nil map, not the empty one: the error of
    [readURL] is lost in [ReadDockerConfigFileFromURL], so the branch that
    answers the empty map is not taken. *)
Theorem ProvideDockerConfigURLKey_refused_nil (image u : string) (w w1 : Wire) :
  readURL dockerConfigURLKey httpClient (Some metadataHeader) w = ((u, None), w1) ->
  (strings_HasPrefix u "http" = false ->
     ProvideDockerConfigURLKey image w = (Some ∅, w1)) /\
  (strings_HasPrefix u "http" = true ->
   url_Parse u = None ->
   forall e, Do httpClient w1 (mkRequest "GET" u ∅) = inr e ->
     fst (readURL u httpClient None w1) = ("", Some e) /\
     ProvideDockerConfigURLKey image w = (None, mkRequest "GET" u ∅ :: w1)).
Proof.
  intros H1. split.
  - intros Hp. unfold ProvideDockerConfigURLKey, bind. rewrite H1, Hp. reflexivity.
  - intros Hp Hparse e Hdo.
    assert (Hread : readURL u httpClient None w1 =
                    (("", Some e), mkRequest "GET" u ∅ :: w1)).
    { rewrite (readURL_unfold _ _ _ _ Hparse).
      change (requestOf u None) with (mkRequest "GET" u ∅). rewrite Hdo. reflexivity. }
    split; [rewrite Hread; reflexivity|].
    unfold ProvideDockerConfigURLKey, bind. rewrite H1, Hp.
    rewrite (ReadDockerConfigFileFromURL_fetch_failure _ _ _ _ _ _ _ Hread).
    reflexivity.
Qed.

(** ** The image argument *)

(** C9.  No provider looks at its image argument: for the same wire,
    and so for the same answers of the network, the three functions of
    [gcpcredentials] and the three [Provide] methods that wrap them return
    the same result for any two images. *)
Theorem Provide_ignores_image (i1 i2 : string) (w : Wire) :
  ProvideDockerConfigKey i1 w = ProvideDockerConfigKey i2 w /\
  ProvideDockerConfigURLKey i1 w = ProvideDockerConfigURLKey i2 w /\
  ProvideContainerRegistry i1 w = ProvideContainerRegistry i2 w /\
  dockerConfigKeyProvider_Provide i1 w = dockerConfigKeyProvider_Provide i2 w /\
  dockerConfigURLKeyProvider_Provide i1 w = dockerConfigURLKeyProvider_Provide i2 w /\
  containerRegistryProvider_Provide i1 w = containerRegistryProvider_Provide i2 w.
Proof.
  repeat split.
Qed.

End Properties.

(** * The properties on the reference hosts *)

Section ReferenceHosts.
Import Reference.

(** On every reference runtime the decoder meets the assumption made of it
    for the token provider: whatever the plain token [T], the body
    [{"access_token":"T"}] and an email give the four entries. *)
Lemma ProvideContainerRegistry_plain_token (cap : Z) (client : http_Client)
    (goos : string) (wmic product_name : string * error)
    (image T email : string) (w w1 w2 : Wire) :
  let RT := runtime cap client goos wmic product_name in
  plain T = true ->
  readURL metadataToken httpClient (Some metadataHeader) w = ((tokenBody T, None), w1) ->
  readURL metadataEmail httpClient (Some metadataHeader) w1 = ((email, None), w2) ->
  ProvideContainerRegistry image w =
  (Some (foldl (fun cfg k => <[k := mkEntry "_token" T email]> cfg) ∅ containerRegistryUrls),
   w2).
Proof.
  intros RT HT H1 H2.
  exact (ProvideContainerRegistry_success image w _ w1 email w2 (mkTokenBlob T)
           H1 H2 (Unmarshal_tokenBody T HT)).
Qed.

End ReferenceHosts.

(** ** The theorems at given inputs *)

Section Witnesses.
Import Reference.

(** C1 on [gceHost]: the [google-dockercfg] key is answered with status 404
    and the key-based provider returns the nil map; the document behind the
    URL key is answered with status 404 and the URL-key provider returns
    the nil map. *)
Lemma Provide_fetch_failure_nil_witness :
  ProvideDockerConfigKey (RT := gceHost) "img" [] =
    (None, [metadataRequest dockerConfigKey]) /\
  ProvideDockerConfigURLKey (RT := gceHost) "img" [] =
    (None, [mkRequest "GET" "http://config.example/dockercfg" ∅;
            metadataRequest dockerConfigURLKey]).
Proof.
  destruct (@Provide_fetch_failure_nil gceHost "img" []) as [Hkey Hurl].
  split.
  - apply (Hkey "" (HTTPError 404 dockerConfigKey)). vm_compute. reflexivity.
  - apply (Hurl "http://config.example/dockercfg" [metadataRequest dockerConfigURLKey]
                "" (HTTPError 404 "http://config.example/dockercfg")).
    + vm_compute. reflexivity.
    + vm_compute. reflexivity.
    + vm_compute. reflexivity.
Defined.

(** C2 on [gceHost]: the token body is [{"access_token":"T"}] and the email
    is [e@x]. *)
Lemma ProvideContainerRegistry_token_witness :
  exists cfg : gmap string DockerConfigEntry,
    ProvideContainerRegistry (RT := gceHost) "img" [] =
      (Some cfg, [metadataRequest metadataEmail; metadataRequest metadataToken]) /\
    dom cfg = {[ "container.cloud.google.com"; "gcr.io"; "*.gcr.io"; "*.pkg.dev" ]} /\
    cfg !! "gcr.io" = Some (mkEntry "_token" "T" "e@x") /\
    cfg !! "docker.io" = None.
Proof.
  destruct (@ProvideContainerRegistry_token gceHost "img" "T" "e@x" []
              [metadataRequest metadataToken]
              [metadataRequest metadataEmail; metadataRequest metadataToken])
    as (cfg & Hrun & Hdom & Hin & Hout).
  - vm_compute. reflexivity.
  - vm_compute. reflexivity.
  - vm_compute. reflexivity.
  - exists cfg. split; [exact Hrun|]. split; [exact Hdom|]. split.
    + apply Hin. apply (bool_decide_unpack _). vm_compute. exact I.
    + apply Hout. apply (bool_decide_unpack _). vm_compute. exact I.
Defined.

(** C3 on [gceHost], where the listing has the default account and the
    scopes hold the read-only storage scope, so that [HasStorageScope] is
    true; on [noDefaultHost], where the listing has no default account, so
    that it is false; and on [lateHost], where the listing comes at the
    fourth attempt and the scopes do not decode, so that it is false after
    three sleeps. *)
Lemma HasStorageScope_decides_witness :
  HasStorageScope (RT := gceHost) 1 [] =
    Some (true, [], [metadataRequest (metadataScopes ++ "?alt=json");
                     metadataRequest serviceAccounts]) /\
  HasStorageScope (RT := noDefaultHost) 1 [] =
    Some (false, [], [metadataRequest serviceAccounts]) /\
  HasStorageScope (RT := lateHost) 4 [] =
    Some (false, [100000000; 200000000; 400000000]%Z,
          metadataRequest (metadataScopes ++ "?alt=json")
            :: replicate 4 (metadataRequest serviceAccounts)).
Proof.
  split; [|split].
  - destruct (@HasStorageScope_decides gceHost [] [metadataRequest serviceAccounts] 0
                ("default/" ++ LF ++ "robot@example.com/" ++ LF))
      as [_ Hpresent]; [vm_compute; reflexivity|].
    destruct (Hpresent
                (ex_intro _ "default/" (conj (list_elem_of_here _ _) eq_refl))
                0%nat ("[" ++ quoted readOnlyScope ++ "]")
                [metadataRequest (metadataScopes ++ "?alt=json");
                 metadataRequest serviceAccounts]
                ltac:(vm_compute; reflexivity) 1%nat (le_n 1) (le_n 1))
      as (b & Hrun & Hiff & _).
    assert (Hb : b = true).
    { apply Hiff. exists [readOnlyScope], readOnlyScope.
      split; [vm_compute; reflexivity|]. split; [apply list_elem_of_here|].
      left. vm_compute. reflexivity. }
    rewrite Hb in Hrun. exact Hrun.
  - destruct (@HasStorageScope_decides noDefaultHost [] [metadataRequest serviceAccounts] 0
                "robot@example.com/")
      as [Habsent _]; [vm_compute; reflexivity|].
    apply Habsent; [|apply le_n].
    intros sa Hin. apply list_elem_of_singleton in Hin. subst sa.
    vm_compute. discriminate.
  - destruct (@HasStorageScope_decides lateHost []
                (replicate 4 (metadataRequest serviceAccounts)) 3 ("default/" ++ LF))
      as [_ Hpresent].
    { simpl. do 3 (eexists _, _, _; split; [vm_compute; reflexivity|]).
      vm_compute. reflexivity. }
    destruct (Hpresent
                (ex_intro _ "default/" (conj (list_elem_of_here _ _) eq_refl))
                0%nat ("default/" ++ LF)
                (metadataRequest (metadataScopes ++ "?alt=json")
                   :: replicate 4 (metadataRequest serviceAccounts))
                ltac:(vm_compute; reflexivity) 4%nat (le_n 4) ltac:(lia))
      as (b & Hrun & _ & Herr & _).
    rewrite (Herr [] (externalError "json: syntax error")) in Hrun
      by (vm_compute; reflexivity).
    exact Hrun.
Defined.

(** C4 on [lateHost]: three failures, then the listing, after sleeping
    100ms, 200ms and 400ms. *)
Lemma runWithBackoff_sleeps_witness :
  runWithBackoff 4 (fetchServiceAccounts (RT := lateHost)) [] =
    Some ("default/" ++ LF, [100000000; 200000000; 400000000]%Z,
          replicate 4 (metadataRequest serviceAccounts)) /\
  sumDelays 3 = 700000000%Z.
Proof.
  assert (Hf : failsThenSucceeds (fetchServiceAccounts (RT := lateHost)) 3
                 ("default/" ++ LF) [] (replicate 4 (metadataRequest serviceAccounts))).
  { simpl. do 3 (eexists _, _, _; split; [vm_compute; reflexivity|]).
    vm_compute. reflexivity. }
  destruct (proj1 (runWithBackoff_sleeps (fetchServiceAccounts (RT := lateHost))
                     3 _ _ _ Hf) 4%nat (le_n 4))
    as (sleeps & Hrun & Hlen & Hdelays & Htotal).
  split; [|vm_compute; reflexivity].
  rewrite Hrun. do 2 f_equal. f_equal.
  destruct sleeps as [|d0 [|d1 [|d2 [|? ?]]]]; try discriminate Hlen.
  pose proof (Hdelays 0%nat ltac:(lia)) as H0.
  pose proof (Hdelays 1%nat ltac:(lia)) as H1.
  pose proof (Hdelays 2%nat ltac:(lia)) as H2.
  simpl in H0, H1, H2.
  injection H0 as ->. injection H1 as ->. injection H2 as ->.
  vm_compute. reflexivity.
Defined.

(** C5 as it is stated fails on [capHost].  The [google-dockercfg] key is
    answered with status 200 and a body of 4 bytes; the cap is 4, so the
    body does not exceed it; yet [readURL] returns the read limit error and
    not the body. *)
Lemma readURL_at_cap_counterexample :
  Do capClient [] (metadataRequest dockerConfigKey) =
    inl (mkResponse 200 (mkBody "abcd" None)) /\
  (Z.of_nat (String.length "abcd") <= maxReadLength (Runtime := capHost))%Z /\
  readURL (RT := capHost) dockerConfigKey capClient (Some metadataHeader) [] =
    (("", Some errReadLimit), [metadataRequest dockerConfigKey]) /\
  fst (readURL (RT := capHost) dockerConfigKey capClient (Some metadataHeader) [])
    <> ("abcd", None).
Proof.
  split; [vm_compute; reflexivity|].
  split; [vm_compute; discriminate|].
  split; [vm_compute; reflexivity|].
  vm_compute. discriminate.
Qed.

(** C5, as amended, on [capHost]: the token endpoint is answered with status
    404, the key with a body of 4 bytes, the email with a body of 3. *)
Lemma readURL_outcomes_witness :
  fst (readURL (RT := capHost) metadataToken capClient (Some metadataHeader) []) =
    ("", Some (HTTPError 404 metadataToken)) /\
  fst (readURL (RT := capHost) dockerConfigKey capClient (Some metadataHeader) []) =
    ("", Some errReadLimit) /\
  fst (readURL (RT := capHost) metadataEmail capClient (Some metadataHeader) []) =
    ("e@x", None).
Proof.
  split; [|split].
  - destruct (@readURL_outcomes capHost metadataToken capClient (Some metadataHeader) [])
      as [_ H].
    destruct (H eq_refl) as [_ Hresp].
    destruct (Hresp (mkResponse 404 (mkBody "" None)) eq_refl) as [Hstatus _].
    apply Hstatus. discriminate.
  - destruct (@readURL_outcomes capHost dockerConfigKey capClient (Some metadataHeader) [])
      as [_ H].
    destruct (H eq_refl) as [_ Hresp].
    destruct (Hresp (mkResponse 200 (mkBody "abcd" None)) eq_refl) as (_ & Hlimit & _).
    apply Hlimit; [reflexivity|vm_compute; discriminate].
  - destruct (@readURL_outcomes capHost metadataEmail capClient (Some metadataHeader) [])
      as [_ H].
    destruct (H eq_refl) as [_ Hresp].
    destruct (Hresp (mkResponse 200 (mkBody "e@x" None)) eq_refl) as (_ & _ & _ & Hbody).
    apply Hbody; [reflexivity|vm_compute; reflexivity|reflexivity].
Defined.

(** C10 on [capHost]: the email of 3 bytes is returned and is below the cap
    of 4; the key of 4 bytes is refused. *)
Lemma readURL_below_cap_witness :
  (Z.of_nat (String.length "e@x") < maxReadLength (Runtime := capHost))%Z /\
  fst (readURL (RT := capHost) dockerConfigKey capClient (Some metadataHeader) []) =
    ("", Some errReadLimit) /\
  fst (readURL (RT := capHost) metadataEmail capClient (Some metadataHeader) []) =
    ("e@x", None).
Proof.
  split; [|split].
  - apply (proj1 (@readURL_below_cap capHost metadataEmail capClient
                    (Some metadataHeader) []) "e@x" [metadataRequest metadataEmail]).
    vm_compute. reflexivity.
  - apply (proj1 (proj2 (@readURL_below_cap capHost dockerConfigKey capClient
                           (Some metadataHeader) []))
                 (mkResponse 200 (mkBody "abcd" None))); reflexivity.
  - apply (proj2 (proj2 (@readURL_below_cap capHost metadataEmail capClient
                           (Some metadataHeader) []))
                 (mkResponse 200 (mkBody "e@x" None))); reflexivity.
Defined.

(** C6 on [httpxHost].  The URL key holds a URL whose scheme is [httpx],
    which is neither [http] nor [https] but starts with [http]; the client
    refuses the request for it, and the provider returns the nil map. *)
Lemma ProvideDockerConfigURLKey_refused_nil_witness :
  strings_HasPrefix httpxURL "http://" = false /\
  strings_HasPrefix httpxURL "https://" = false /\
  Do httpxClient [metadataRequest dockerConfigURLKey] (mkRequest "GET" httpxURL ∅) =
    inr (externalError ("unsupported protocol scheme " ++ quoted "httpx")) /\
  ProvideDockerConfigURLKey (RT := httpxHost) "img" [] =
    (None, [mkRequest "GET" httpxURL ∅; metadataRequest dockerConfigURLKey]).
Proof.
  split; [reflexivity|]. split; [reflexivity|]. split; [vm_compute; reflexivity|].
  destruct (@ProvideDockerConfigURLKey_refused_nil httpxHost "img" httpxURL []
              [metadataRequest dockerConfigURLKey]) as [_ Hrefused].
  - vm_compute. reflexivity.
  - apply (Hrefused eq_refl eq_refl
             (externalError ("unsupported protocol scheme " ++ quoted "httpx"))).
    vm_compute. reflexivity.
Defined.

(** The gate on [bucketHost], whose URL does not start with [http] (nothing
    is fetched, the map is empty), and on [gceHost], whose URL does (one
    request, without header). *)
Lemma ProvideDockerConfigURLKey_fetches_witness :
  ProvideDockerConfigURLKey (RT := bucketHost) "img" [] =
    (Some ∅, [metadataRequest dockerConfigURLKey]) /\
  snd (ProvideDockerConfigURLKey (RT := gceHost) "img" []) =
    [mkRequest "GET" "http://config.example/dockercfg" ∅;
     metadataRequest dockerConfigURLKey].
Proof.
  split.
  - destruct (@ProvideDockerConfigURLKey_fetches bucketHost "img" "gs://bucket/dockercfg"
                [] [metadataRequest dockerConfigURLKey]) as [Hno _].
    + vm_compute. reflexivity.
    + apply Hno. reflexivity.
  - destruct (@ProvideDockerConfigURLKey_fetches gceHost "img"
                "http://config.example/dockercfg"
                [] [metadataRequest dockerConfigURLKey]) as (_ & Hyes & _).
    + vm_compute. reflexivity.
    + destruct (Hyes eq_refl) as (_ & Hsent & _). apply Hsent. reflexivity.
Defined.

(** C7 on the reference hosts: a Linux VM and a Windows VM are recognised,
    a machine without the product name file is not. *)
Lemma OnGCEVM_iff_witness :
  OnGCEVM (RT := gceHost) = true /\
  OnGCEVM (RT := windowsHost) = true /\
  OnGCEVM (RT := otherHost) = false.
Proof.
  split; [|split].
  - destruct (@OnGCEVM_iff gceHost) as [Hposix _].
    destruct (Hposix ltac:(discriminate)) as [Hiff _].
    apply Hiff. exists ("Google Compute Engine" ++ LF).
    split; [reflexivity|]. right. vm_compute. reflexivity.
  - destruct (@OnGCEVM_iff windowsHost) as [_ Hwin].
    destruct (Hwin eq_refl) as [Hiff _].
    apply Hiff. eexists _, _, _.
    split; [reflexivity|]. split; [vm_compute; reflexivity|]. right. reflexivity.
  - destruct (@OnGCEVM_iff otherHost) as [Hposix _].
    destruct (Hposix ltac:(discriminate)) as [_ Hfail].
    apply (Hfail "" (externalError "open: no such file or directory")). reflexivity.
Defined.

End Witnesses.

(** * Further properties of the packages *)

(** ** Package [gcpcredentials] *)

Section GcpCredentials.
Context `{RT : Runtime}.

(** X1.  [readURL] never returns bytes together with an error, and it puts
    at most one request on the wire: none when the URL does not parse, and
    otherwise a GET of the URL whose header is the one it was given, or the
    empty one for a nil header. *)
Theorem readURL_bytes_or_error (url : string) (client : http_Client)
    (header : option http_Header) (w : Wire) :
  (exists body err,
     fst (readURL url client header w) = (body, err) /\ (err = None \/ body = "")) /\
  snd (readURL url client header w) =
    match url_Parse url with
    | Some _ => w
    | None => mkRequest "GET" url (default ∅ header) :: w
    end.
Proof.
  destruct (url_Parse url) as [e|] eqn:Hp.
  - rewrite (readURL_parse_error _ _ _ _ _ Hp). simpl. eauto 6.
  - rewrite (readURL_unfold _ _ _ _ Hp). simpl. split; [|reflexivity].
    destruct (Do client w (requestOf url header)) as [resp|err]; [|eauto 6].
    destruct (negb (StatusCode resp =? http_StatusOK)%Z); [eauto 6|].
    destruct (ReadAll_LimitedReader (resp_Body resp) maxReadLength) as [[contents err] N].
    destruct err; [eauto 6|]. destruct (N <=? 0)%Z; eauto 6.
Qed.

(** X2.  The only error that [ReadDockerConfigFileFromURL] ever returns is
    the one of a document that does not decode, and it comes with the nil
    map; the error of a failed fetch never reaches its caller. *)
Theorem ReadDockerConfigFileFromURL_errors (url : string) (client : http_Client)
    (header : option http_Header) (w : Wire) :
  snd (fst (ReadDockerConfigFileFromURL url client header w)) = None \/
  fst (ReadDockerConfigFileFromURL url client header w) =
    (None, Some (errorString "error occurred while trying to unmarshal json")).
Proof.
  unfold ReadDockerConfigFileFromURL, bind.
  destruct (readURL url client header w) as [[contents [e|]] w']; simpl; [left; reflexivity|].
  unfold readDockerConfigFileFromBytes.
  destruct (json_Unmarshal_DockerConfig contents None) as [cfg [e|]]; auto.
Qed.

(** X3.  [ProvideContainerRegistry] never returns the nil map: its result
    is the empty map or a map whose keys are exactly the four registry host
    patterns and whose entries are all the same, with the user name
    ["_token"]. *)
Theorem ProvideContainerRegistry_shape (image : string) (w : Wire) :
  exists m : gmap string DockerConfigEntry,
    fst (ProvideContainerRegistry image w) = Some m /\
    (m = ∅ \/
     exists T email,
       dom m = {[ "container.cloud.google.com"; "gcr.io"; "*.gcr.io"; "*.pkg.dev" ]} /\
       map_Forall (fun _ entry => entry = mkEntry "_token" T email) m).
Proof.
  unfold ProvideContainerRegistry, bind.
  destruct (readURL metadataToken httpClient (Some metadataHeader) w)
    as [[body [e|]] w1]; [exists ∅; auto|].
  destruct (readURL metadataEmail httpClient (Some metadataHeader) w1)
    as [[email [e|]] w2]; [exists ∅; auto|].
  destruct (json_Unmarshal_tokenBlob body (mkTokenBlob "")) as [blob [e|]];
    [exists ∅; auto|].
  eexists. split; [reflexivity|]. right. exists (AccessToken blob), email. split.
  - unfold containerRegistryUrls. simpl foldl.
    rewrite !dom_insert_L, dom_empty_L. set_solver.
  - intros k entry Hk. rewrite lookup_foldl_insert in Hk.
    destruct (decide (k ∈ containerRegistryUrls)); [congruence|].
    rewrite lookup_empty in Hk. discriminate.
Qed.

(** X4.  [ProvideContainerRegistry] sends at most two requests, both with
    the metadata header: the one for the token and then the one for the
    email, which it sends only after the token was fetched without
    error. *)
Theorem ProvideContainerRegistry_requests (image : string) (w : Wire) :
  exists sent,
    snd (ProvideContainerRegistry image w) = (sent ++ w)%list /\
    (sent = [] \/
     sent = [metadataRequest metadataToken] \/
     (sent = [metadataRequest metadataEmail; metadataRequest metadataToken] /\
      snd (fst (readURL metadataToken httpClient (Some metadataHeader) w)) = None)).
Proof.
  unfold ProvideContainerRegistry, bind.
  pose proof (readURL_wire metadataToken httpClient (Some metadataHeader) w) as Hw1.
  destruct (readURL metadataToken httpClient (Some metadataHeader) w)
    as [[body [e|]] w1] eqn:H1; simpl in *.
  - destruct Hw1 as [->| ->].
    + exists []. split; [reflexivity|]. left. reflexivity.
    + exists [metadataRequest metadataToken]. split; [reflexivity|].
      right. left. reflexivity.
  - clear Hw1. destruct (readURL_success_inv _ _ _ _ _ _ H1) as (_ & -> & _).
    pose proof (readURL_wire metadataEmail httpClient (Some metadataHeader)
                  (requestOf metadataToken (Some metadataHeader) :: w)) as Hw2.
    assert (Hsent : exists sent,
              snd (readURL metadataEmail httpClient (Some metadataHeader)
                     (requestOf metadataToken (Some metadataHeader) :: w))
              = (sent ++ w)%list /\
              (sent = [] \/ sent = [metadataRequest metadataToken] \/
               (sent = [metadataRequest metadataEmail; metadataRequest metadataToken] /\
                @None GoError = None))).
    { destruct Hw2 as [->| ->].
      - exists [metadataRequest metadataToken]. split; [reflexivity|].
        right. left. reflexivity.
      - exists [metadataRequest metadataEmail; metadataRequest metadataToken].
        split; [reflexivity|]. right. right. split; reflexivity. }
    destruct (readURL metadataEmail httpClient (Some metadataHeader)
                (requestOf metadataToken (Some metadataHeader) :: w))
      as [[email [e|]] w2]; simpl in *; [exact Hsent|].
    destruct (json_Unmarshal_tokenBlob body (mkTokenBlob "")) as [blob [e|]];
      exact Hsent.
Qed.

(** X5.  The two document-based providers treat a document alike: when the
    [google-dockercfg] key and the URL named by the [google-dockercfg-url]
    key deliver the same bytes, both return the same result, which is the
    decoded configuration, or the empty map when the bytes do not
    decode. *)
Theorem providers_decode_alike (image1 image2 u contents : string)
    (w w1 w' w1' w2' : Wire) :
  readURL dockerConfigKey httpClient (Some metadataHeader) w = ((contents, None), w1) ->
  readURL dockerConfigURLKey httpClient (Some metadataHeader) w' = ((u, None), w1') ->
  strings_HasPrefix u "http" = true ->
  readURL u httpClient None w1' = ((contents, None), w2') ->
  fst (ProvideDockerConfigKey image1 w) = fst (ProvideDockerConfigURLKey image2 w') /\
  fst (ProvideDockerConfigKey image1 w) =
    match json_Unmarshal_DockerConfig contents None with
    | (_, Some _) => Some ∅
    | (cfg, None) => cfg
    end.
Proof.
  intros H1 H2 Hp H3.
  unfold ProvideDockerConfigKey, ProvideDockerConfigURLKey, bind.
  rewrite H2, Hp.
  rewrite (ReadDockerConfigFileFromURL_fetched _ _ _ _ _ _ H1).
  rewrite (ReadDockerConfigFileFromURL_fetched _ _ _ _ _ _ H3).
  unfold readDockerConfigFileFromBytes.
  destruct (json_Unmarshal_DockerConfig contents None) as [cfg [e|]]; split; reflexivity.
Qed.

(** X6.  The [Provide] methods of package [gcp] never return the nil map:
    each returns the entries that the function of [gcpcredentials] it wraps
    returns, in a map of its own, which is empty when that function returns
    the nil map; it sends what that function sends. *)
Theorem gcp_Provide_copies (image : string) (w : Wire) :
  dockerConfigKeyProvider_Provide image w =
    (Some (default ∅ (fst (ProvideDockerConfigKey image w))),
     snd (ProvideDockerConfigKey image w)) /\
  dockerConfigURLKeyProvider_Provide image w =
    (Some (default ∅ (fst (ProvideDockerConfigURLKey image w))),
     snd (ProvideDockerConfigURLKey image w)) /\
  containerRegistryProvider_Provide image w =
    (Some (default ∅ (fst (ProvideContainerRegistry image w))),
     snd (ProvideContainerRegistry image w)).
Proof.
  unfold dockerConfigKeyProvider_Provide, dockerConfigURLKeyProvider_Provide,
    containerRegistryProvider_Provide, bind, ret.
  destruct (ProvideDockerConfigKey image w) as [c1 w1].
  destruct (ProvideDockerConfigURLKey image w) as [c2 w2].
  destruct (ProvideContainerRegistry image w) as [c3 w3].
  rewrite !copyDockerConfig_spec. auto.
Qed.

(** X16.  [ProvideDockerConfigKey] returns the nil map in two cases only:
    the fetch of the key failed, or the document decoded without error to
    the nil map. *)
Theorem ProvideDockerConfigKey_nil (image : string) (w : Wire) :
  fst (ProvideDockerConfigKey image w) = None ->
  (exists x e,
     fst (readURL dockerConfigKey httpClient (Some metadataHeader) w) = (x, Some e)) \/
  (exists contents,
     fst (readURL dockerConfigKey httpClient (Some metadataHeader) w) = (contents, None) /\
     json_Unmarshal_DockerConfig contents None = (None, None)).
Proof.
  unfold ProvideDockerConfigKey, ReadDockerConfigFileFromURL, bind.
  destruct (readURL dockerConfigKey httpClient (Some metadataHeader) w)
    as [[contents [e|]] w1]; simpl.
  - intros _. left. exists contents, e. reflexivity.
  - unfold readDockerConfigFileFromBytes.
    destruct (json_Unmarshal_DockerConfig contents None) as [cfg [e|]] eqn:Hj; simpl;
      [discriminate|].
    intros ->. right. exists contents. split; [reflexivity|exact Hj].
Qed.

(** ** The retry loop on the wire *)

Lemma failsThenSucceeds_readURL_parses url client header k :
  forall v w w',
    failsThenSucceeds (readURL url client header) k v w w' -> url_Parse url = None.
Proof.
  induction k as [|k IH]; intros v w w' H; simpl in H.
  - exact (proj1 (readURL_success_inv _ _ _ _ _ _ H)).
  - destruct H as (x & e & w1 & _ & Hrest). exact (IH _ _ _ Hrest).
Qed.

(** Every attempt of a retried [readURL] puts its request on the wire. *)
Lemma failsThenSucceeds_readURL_wire url client header k :
  forall v w w',
    failsThenSucceeds (readURL url client header) k v w w' ->
    w' = (replicate (Datatypes.S k) (requestOf url header) ++ w)%list.
Proof.
  induction k as [|k IH]; intros v w w' H.
  - simpl in H. destruct (readURL_success_inv _ _ _ _ _ _ H) as (_ & -> & _). reflexivity.
  - pose proof (failsThenSucceeds_readURL_parses _ _ _ _ _ _ _ H) as Hp.
    simpl in H. destruct H as (x & e & w1 & Hstep & Hrest).
    rewrite (readURL_unfold _ _ _ _ Hp) in Hstep. injection Hstep as _ <-.
    rewrite (IH _ _ _ Hrest).
    rewrite (replicate_S_end (Datatypes.S k)), <- app_assoc. reflexivity.
Qed.

End GcpCredentials.

Lemma delay_min i : (100 * time_Millisecond <= delay i)%Z.
Proof.
  unfold delay, time_Millisecond, time_Second.
  assert (0 < 2 ^ Z.of_nat i)%Z by (apply Z.pow_pos_nonneg; lia).
  lia.
Qed.

Lemma delay_mono i j : (i <= j)%nat -> (delay i <= delay j)%Z.
Proof.
  intros Hij. unfold delay.
  assert (2 ^ Z.of_nat i <= 2 ^ Z.of_nat j)%Z by (apply Z.pow_le_mono_r; lia).
  unfold time_Millisecond, time_Second. lia.
Qed.

Lemma delay_capped i : (10 <= i)%nat -> delay i = (60 * time_Second)%Z.
Proof.
  intros Hi. unfold delay.
  assert (2 ^ 10 <= 2 ^ Z.of_nat i)%Z by (apply Z.pow_le_mono_r; lia).
  unfold time_Millisecond, time_Second. lia.
Qed.

Section BackoffSchedule.
Context {S : Type} (f : S -> (string * error) * S).

(** An answer of the loop comes with the sleeps of the schedule, one for
    each failed attempt. *)
Lemma runWithBackoff_from_schedule fuel :
  forall i s v sleeps s',
    runWithBackoff_from fuel f (delay i) s = Some (v, sleeps, s') ->
    sleeps = map delay (seq i (length sleeps)) /\
    failsThenSucceeds f (length sleeps) v s s'.
Proof.
  induction fuel as [|fuel IH]; intros i s v sleeps s' H; [discriminate|].
  simpl in H. destruct (f s) as [[x err] s1] eqn:Hfs. destruct err as [e|].
  - rewrite delay_next in H.
    destruct (runWithBackoff_from fuel f (delay (Datatypes.S i)) s1)
      as [[[v0 sl] s2]|] eqn:Hrec; [|discriminate].
    injection H as <- <- <-.
    destruct (IH _ _ _ _ _ Hrec) as [Hsl Hf]. split.
    + simpl. f_equal. exact Hsl.
    + simpl. eauto.
  - injection H as <- <- <-. split; [reflexivity|exact Hfs].
Qed.

(** X7.  Whatever the operation, a run of [runWithBackoff] that returns
    has slept exactly once after each failed attempt and not after the
    successful one; every sleep lasts between 100ms and 60s, no sleep is
    shorter than the one before it, and from the eleventh sleep on each
    lasts exactly 60s. *)
Theorem runWithBackoff_schedule (fuel : nat) (s : S) (v : string)
    (sleeps : list Z) (s' : S) :
  runWithBackoff fuel f s = Some (v, sleeps, s') ->
  failsThenSucceeds f (length sleeps) v s s' /\
  Forall (fun d => 100 * time_Millisecond <= d <= 60 * time_Second)%Z sleeps /\
  (forall i j d1 d2, (i <= j)%nat ->
     sleeps !! i = Some d1 -> sleeps !! j = Some d2 -> (d1 <= d2)%Z) /\
  (forall i d, (10 <= i)%nat -> sleeps !! i = Some d -> d = (60 * time_Second)%Z).
Proof.
  intros H. unfold runWithBackoff in H.
  change (100 * time_Millisecond)%Z with (delay 0) in H.
  destruct (runWithBackoff_from_schedule _ _ _ _ _ _ H) as [Hsl Hf].
  split; [exact Hf|].
  assert (Hlook : forall i d, sleeps !! i = Some d -> d = delay i).
  { intros i d Hi. rewrite Hsl in Hi.
    rewrite list_lookup_fmap in Hi.
    destruct (seq 0 (length sleeps) !! i) as [n|] eqn:Hn; [|discriminate].
    apply lookup_seq in Hn as [-> _]. simpl in Hi. congruence. }
  split; [|split].
  - apply Forall_lookup. intros i d Hi. rewrite (Hlook _ _ Hi).
    split; [apply delay_min|apply delay_pos].
  - intros i j d1 d2 Hij H1 H2. rewrite (Hlook _ _ H1), (Hlook _ _ H2).
    apply delay_mono, Hij.
  - intros i d Hi Hd. rewrite (Hlook _ _ Hd). apply delay_capped, Hi.
Qed.

(** X8.  [runWithBackoff] has no way out but success: for an operation that
    fails whenever it is called, no number of attempts gives an answer. *)
Theorem runWithBackoff_blocks :
  (forall s, exists x e s1, f s = ((x, Some e), s1)) ->
  forall fuel s, runWithBackoff fuel f s = None.
Proof.
  intros Hfail fuel s. unfold runWithBackoff.
  apply runWithBackoff_from_never, Hfail.
Qed.

End BackoffSchedule.

Section GcpEnablement.
Context `{RT : Runtime}.

Lemma runWithBackoff_readURL_wire fuel url header w v sleeps w' :
  runWithBackoff fuel (readURL url httpClient header) w = Some (v, sleeps, w') ->
  w' = (replicate (Datatypes.S (length sleeps)) (requestOf url header) ++ w)%list.
Proof.
  intros H. unfold runWithBackoff in H.
  change (100 * time_Millisecond)%Z with (delay 0) in H.
  destruct (runWithBackoff_from_schedule _ _ _ _ _ _ _ H) as [_ Hf].
  exact (failsThenSucceeds_readURL_wire _ _ _ _ _ _ _ Hf).
Qed.

(** X9.  A run of [HasStorageScope] that returns has sent only GET requests
    with the metadata header: first [n1] of them for the listing of the
    service accounts, then [n2] of them for the scopes, one request for
    each attempt, so that it has slept once after every request but the
    last one for the listing and the last one for the scopes.  It answers
    true only after it has asked for the scopes. *)
Theorem HasStorageScope_requests (fuel : nat) (w : Wire) (b : bool)
    (sleeps : list Z) (w' : Wire) :
  HasStorageScope fuel w = Some (b, sleeps, w') ->
  exists n1 n2,
    w' = (replicate n2 (metadataRequest (metadataScopes ++ "?alt=json"))
          ++ replicate n1 (metadataRequest serviceAccounts) ++ w)%list /\
    (1 <= n1)%nat /\
    ((n2 = 0%nat /\ b = false /\ (n1 = length sleeps + 1)%nat) \/
     ((1 <= n2)%nat /\ (n1 + n2 = length sleeps + 2)%nat)).
Proof.
  unfold HasStorageScope. intros H.
  destruct (runWithBackoff fuel fetchServiceAccounts w) as [[[value sl1] w1]|] eqn:H1;
    [|discriminate].
  apply runWithBackoff_readURL_wire in H1. fold (metadataRequest serviceAccounts) in H1.
  destruct (defaultServiceAccountExists value); simpl negb in H; cbv iota in H.
  - destruct (runWithBackoff fuel fetchScopes w1) as [[[value2 sl2] w2]|] eqn:H2;
      [|discriminate].
    apply runWithBackoff_readURL_wire in H2.
    fold (metadataRequest (metadataScopes ++ "?alt=json")) in H2.
    assert (Hres : w' = w2 /\ sleeps = (sl1 ++ sl2)%list).
    { destruct (json_Unmarshal_strings value2 []) as [scopes [e|]];
        injection H as _ <- <-; auto. }
    destruct Hres as [-> ->].
    exists (Datatypes.S (length sl1)), (Datatypes.S (length sl2)).
    rewrite H2, H1, length_app. split; [reflexivity|]. split; [lia|]. right. lia.
  - injection H as <- <- <-.
    exists (Datatypes.S (length sl1)), 0%nat.
    rewrite H1. split; [reflexivity|]. split; [lia|]. left. lia.
Qed.

(** X10.  While the metadata server answers no request with status 200,
    [HasStorageScope] does not return, however many attempts it may make:
    a status other than 200 is retried like a failed connection.  So
    neither does [Enabled] of the registry provider on a VM. *)
Theorem HasStorageScope_blocks :
  (forall w req,
     match Do httpClient w req with
     | inl resp => StatusCode resp <> 200%Z
     | inr _ => True
     end) ->
  forall fuel w,
    HasStorageScope fuel w = None /\
    (OnGCEVM = true -> containerRegistryProvider_Enabled fuel w = None).
Proof.
  intros Hdown fuel w.
  assert (Hfail : forall w0, exists x e w1, fetchServiceAccounts w0 = ((x, Some e), w1)).
  { intros w0. unfold fetchServiceAccounts.
    destruct (url_Parse serviceAccounts) as [e|] eqn:Hp.
    - rewrite (readURL_parse_error _ _ _ _ _ Hp). eauto.
    - rewrite (readURL_unfold _ _ _ _ Hp).
      specialize (Hdown w0 (requestOf serviceAccounts (Some metadataHeader))).
      destruct (Do httpClient w0 (requestOf serviceAccounts (Some metadataHeader)))
        as [resp|e]; [|eauto].
      destruct (StatusCode resp =? http_StatusOK)%Z eqn:E.
      + apply Z.eqb_eq in E. destruct (Hdown E).
      + simpl. eauto. }
  assert (Hnone : HasStorageScope fuel w = None).
  { unfold HasStorageScope, runWithBackoff.
    rewrite (runWithBackoff_from_never _ _ Hfail). reflexivity. }
  split; [exact Hnone|].
  intros Hgce. unfold containerRegistryProvider_Enabled. rewrite Hgce. exact Hnone.
Qed.

(** [Enabled] of the registry provider does not touch the network on a
    machine that is no GCE VM: it answers false at once, without a request
    and without a sleep.  When it answers true, the machine is a GCE VM and
    [HasStorageScope] has answered true. *)
Lemma containerRegistryProvider_Enabled_gate (fuel : nat) (w : Wire) :
  (OnGCEVM = false ->
     containerRegistryProvider_Enabled fuel w = Some (false, [], w)) /\
  (forall sleeps w',
     containerRegistryProvider_Enabled fuel w = Some (true, sleeps, w') ->
     OnGCEVM = true /\ HasStorageScope fuel w = Some (true, sleeps, w')).
Proof.
  unfold containerRegistryProvider_Enabled. split.
  - intros ->. reflexivity.
  - intros sleeps w' H. destruct OnGCEVM; [auto|discriminate].
Qed.

End GcpEnablement.

(** ** Package [cloudprovider] *)

Section Migration.
Import cloudprovider.

(** X11.  Whatever the component, the service controller and the node IPAM
    controller are enabled together, the route controller and the service
    controller are never both enabled, none of the three runs under the
    migration lock, and the cloud node controller is enabled under the
    lock.  With a component that is neither of the two names, none of the
    three is enabled. *)
Theorem controllers_by_component (m : dummyMigrationConfig) :
  ServiceController m = NodeIPAMController m /\
  fst (RouteController m) && fst (ServiceController m) = false /\
  snd (ServiceController m) = false /\
  snd (RouteController m) = false /\
  snd (NodeIPAMController m) = false /\
  CloudNodeController m = (true, true) /\
  (component m <> ccm -> component m <> kcm ->
   ServiceController m = (false, false) /\ RouteController m = (false, false)).
Proof.
  unfold ServiceController, NodeIPAMController, RouteController, CloudNodeController.
  destruct (String.eqb (component m) ccm) eqn:Ec;
    destruct (String.eqb (component m) kcm) eqn:Ek; simpl;
    try (apply String.eqb_eq in Ec); try (apply String.eqb_eq in Ek);
    repeat split; try reflexivity; try congruence.
  rewrite Ec in Ek. discriminate.
Qed.


End Migration.

(** ** Package [dnspolicy] *)

Lemma int64_range z : (- 2 ^ 63 <= int64 z < 2 ^ 63)%Z.
Proof.
  unfold int64. pose proof (Z.mod_pos_bound (z + 2 ^ 63) (2 ^ 64) eq_refl). lia.
Qed.

Lemma int64_succ_ne g : int64 (g + 1) <> g.
Proof.
  unfold int64. intros H.
  pose proof (Z.div_mod (g + 1 + 2 ^ 63) (2 ^ 64) ltac:(lia)) as Hdm.
  pose proof (Z.mod_pos_bound (g + 1 + 2 ^ 63) (2 ^ 64) eq_refl) as Hb.
  lia.
Qed.

Lemma int64_add_l a b : int64 (int64 a + b) = int64 (a + b).
Proof.
  unfold int64.
  replace ((a + 2 ^ 63) mod 2 ^ 64 - 2 ^ 63 + b + 2 ^ 63)%Z
    with ((a + 2 ^ 63) mod 2 ^ 64 + b)%Z by lia.
  rewrite Zplus_mod_idemp_l. f_equal. f_equal. lia.
Qed.

Section DNSPolicyStrategy.
Import dnspolicy.
Context {TypeMeta ObjectMetaRest LabelSelector : Type}.
Context `{EqDecision TypeMeta, EqDecision ObjectMetaRest, EqDecision LabelSelector}.

Lemma setGeneration_generationOf (obj : (@DNSPolicy TypeMeta ObjectMetaRest LabelSelector)) g :
  generationOf (setGeneration obj g) = g.
Proof. reflexivity. Qed.

Lemma setGeneration_same (obj : (@DNSPolicy TypeMeta ObjectMetaRest LabelSelector)) :
  setGeneration obj (generationOf obj) = obj.
Proof. destruct obj as [t [g r] sp]. reflexivity. Qed.

Lemma PrepareForUpdate_equal (obj : (@DNSPolicy TypeMeta ObjectMetaRest LabelSelector)) : PrepareForUpdate obj obj = obj.
Proof.
  unfold PrepareForUpdate, reflect_DeepEqual.
  rewrite bool_decide_eq_true_2 by reflexivity. reflexivity.
Qed.

Lemma PrepareForUpdate_changed (obj old : (@DNSPolicy TypeMeta ObjectMetaRest LabelSelector)) :
  old <> obj ->
  PrepareForUpdate obj old = setGeneration obj (int64 (generationOf old + 1)).
Proof.
  intros Hne. unfold PrepareForUpdate, reflect_DeepEqual.
  rewrite bool_decide_eq_false_2 by exact Hne. reflexivity.
Qed.

(** X13.  [PrepareForUpdate] changes nothing of the submitted object but
    its generation.  Afterwards the generation is the old one when the
    submitted object deeply equals the old one, and the old one plus one,
    as an int64, in every other case: a change of the metadata alone counts
    as much as a change of the spec, and a generation that the client sent
    is never kept. *)
Theorem PrepareForUpdate_generation (obj old : (@DNSPolicy TypeMeta ObjectMetaRest LabelSelector)) :
  PrepareForUpdate obj old = setGeneration obj (generationOf (PrepareForUpdate obj old)) /\
  generationOf (PrepareForUpdate obj old) =
    (if decide (old = obj) then generationOf old else int64 (generationOf old + 1)).
Proof.
  destruct (decide (old = obj)) as [->|Hne].
  - rewrite PrepareForUpdate_equal. split; [symmetry; apply setGeneration_same|reflexivity].
  - rewrite (PrepareForUpdate_changed _ _ Hne). split; reflexivity.
Qed.

(** X14.  [PrepareForUpdate] is idempotent: preparing against the same old
    object an object that was prepared already changes nothing, so the
    generation is not raised twice for one update. *)
Theorem PrepareForUpdate_idempotent (obj old : (@DNSPolicy TypeMeta ObjectMetaRest LabelSelector)) :
  PrepareForUpdate (PrepareForUpdate obj old) old = PrepareForUpdate obj old.
Proof.
  destruct (decide (old = obj)) as [->|Hne].
  - rewrite !PrepareForUpdate_equal. reflexivity.
  - rewrite (PrepareForUpdate_changed _ _ Hne).
    rewrite PrepareForUpdate_changed.
    + destruct obj as [t [g r] sp]. reflexivity.
    + intros Heq. apply (f_equal generationOf) in Heq.
      rewrite setGeneration_generationOf in Heq.
      exact (int64_succ_ne _ (eq_sym Heq)).
Qed.

Lemma applyUpdates_generation (objs : list (@DNSPolicy TypeMeta ObjectMetaRest LabelSelector)) :
  forall stored : (@DNSPolicy TypeMeta ObjectMetaRest LabelSelector),
    generationOf (applyUpdates stored objs) =
    (if decide (countChanges stored objs = 0%nat) then generationOf stored
     else int64 (generationOf stored + Z.of_nat (countChanges stored objs))).
Proof.
  induction objs as [|obj rest IH]; intros stored; simpl; [reflexivity|].
  rewrite IH. unfold reflect_DeepEqual.
  destruct (decide (stored = obj)) as [->|Hne].
  - rewrite bool_decide_eq_true_2 by reflexivity.
    rewrite PrepareForUpdate_equal. reflexivity.
  - rewrite bool_decide_eq_false_2 by exact Hne.
    rewrite (PrepareForUpdate_changed _ _ Hne), setGeneration_generationOf.
    generalize (countChanges (setGeneration obj (int64 (generationOf stored + 1))) rest).
    intros n. rewrite (decide_False (P := (1 + n = 0)%nat)) by lia.
    destruct (decide (n = 0%nat)) as [Hn|Hn].
    + subst n. f_equal.
    + rewrite int64_add_l. f_equal. lia.
Qed.

(** X15.  The generation counts the updates that change the object: after
    [PrepareForCreate] and any sequence of updates, each prepared against
    the object stored before it, the generation is one plus the number of
    the updates that submitted an object other than the stored one, as an
    int64.  An update that submits the stored object as it is does not
    count. *)
Theorem generation_counts_changes (obj : (@DNSPolicy TypeMeta ObjectMetaRest LabelSelector)) (objs : list (@DNSPolicy TypeMeta ObjectMetaRest LabelSelector)) :
  generationOf (applyUpdates (PrepareForCreate obj) objs) =
  int64 (1 + Z.of_nat (countChanges (PrepareForCreate obj) objs)).
Proof.
  assert (Hg : generationOf (PrepareForCreate obj) = 1%Z) by reflexivity.
  rewrite applyUpdates_generation, Hg.
  destruct (decide (countChanges (PrepareForCreate obj) objs = 0%nat)) as [Hn|Hn];
    [rewrite Hn|]; reflexivity.
Qed.

End DNSPolicyStrategy.

(** ** The further properties at given inputs *)

Section FurtherWitnesses.
Import Reference.

(** X5 on [sameHost]: the key and the document behind the URL key hold the
    same configuration, and both providers return it. *)
Lemma providers_decode_alike_witness :
  fst (ProvideDockerConfigKey (RT := sameHost) "img" []) =
    fst (ProvideDockerConfigURLKey (RT := sameHost) "other" []) /\
  fst (ProvideDockerConfigKey (RT := sameHost) "img" []) =
    Some {[ "gcr.io" := mkEntry "u" "p" "" ]}.
Proof.
  destruct (@providers_decode_alike sameHost "img" "other"
              "https://config.example/dockercfg" httpxConfig
              [] [metadataRequest dockerConfigKey]
              [] [metadataRequest dockerConfigURLKey]
              [mkRequest "GET" "https://config.example/dockercfg" ∅;
               metadataRequest dockerConfigURLKey])
    as [Hsame Hcfg]; try (vm_compute; reflexivity).
  split; [exact Hsame|]. rewrite Hcfg. vm_compute. reflexivity.
Defined.

(** X7 on [lateHost]: three failed attempts, three sleeps. *)
Lemma runWithBackoff_schedule_witness :
  failsThenSucceeds (fetchServiceAccounts (RT := lateHost)) 3 ("default/" ++ LF) []
    (replicate 4 (metadataRequest serviceAccounts)) /\
  Forall (fun d => 100 * time_Millisecond <= d <= 60 * time_Second)%Z
    [100000000; 200000000; 400000000]%Z.
Proof.
  destruct (runWithBackoff_schedule (fetchServiceAccounts (RT := lateHost)) 4 []
              ("default/" ++ LF) [100000000; 200000000; 400000000]%Z
              (replicate 4 (metadataRequest serviceAccounts)))
    as (Hf & Hbounds & _); [vm_compute; reflexivity|].
  split; [exact Hf|exact Hbounds].
Defined.

(** X8 on [deadHost]: the listing cannot be fetched, and fifty attempts
    give no answer. *)
Lemma runWithBackoff_blocks_witness :
  runWithBackoff 50 (fetchServiceAccounts (RT := deadHost)) [] = None.
Proof.
  apply (runWithBackoff_blocks (fetchServiceAccounts (RT := deadHost))).
  intros w. exists "", (externalError "connection refused"),
    (metadataRequest serviceAccounts :: w).
  vm_compute. reflexivity.
Defined.

(** X9 on [lateHost]: four requests for the listing and one for the scopes,
    after three sleeps. *)
Lemma HasStorageScope_requests_witness :
  exists n1 n2,
    metadataRequest (metadataScopes ++ "?alt=json")
      :: replicate 4 (metadataRequest serviceAccounts)
    = (replicate n2 (metadataRequest (metadataScopes ++ "?alt=json"))
       ++ replicate n1 (metadataRequest serviceAccounts) ++ [])%list /\
    (1 <= n1)%nat.
Proof.
  destruct (@HasStorageScope_requests lateHost 4 [] false
              [100000000; 200000000; 400000000]%Z
              (metadataRequest (metadataScopes ++ "?alt=json")
                 :: replicate 4 (metadataRequest serviceAccounts)))
    as (n1 & n2 & Hw & Hn1 & _); [vm_compute; reflexivity|].
  exists n1, n2. split; [exact Hw|exact Hn1].
Defined.

(** X10 on [downHost]: every answer has status 503, and [HasStorageScope]
    and [Enabled] give no answer after fifty attempts. *)
Lemma HasStorageScope_blocks_witness :
  HasStorageScope (RT := downHost) 50 [] = None /\
  containerRegistryProvider_Enabled (RT := downHost) 50 [] = None.
Proof.
  destruct (@HasStorageScope_blocks downHost
              ltac:(intros w req; simpl; discriminate) 50%nat [])
    as [Hnone Hen].
  split; [exact Hnone|]. apply Hen. vm_compute. reflexivity.
Defined.

(** X16 on [nullHost], whose key holds the JSON document [null]: the fetch
    succeeds, the decoder leaves the nil map, and the provider returns
    it. *)
Lemma ProvideDockerConfigKey_nil_witness :
  fst (ProvideDockerConfigKey (RT := nullHost) "img" []) = None /\
  exists contents,
    fst (readURL (RT := nullHost) dockerConfigKey nullClient (Some metadataHeader) [])
      = (contents, None) /\
    json_Unmarshal_DockerConfig (Runtime := nullHost) contents None = (None, None).
Proof.
  assert (Hnil : fst (ProvideDockerConfigKey (RT := nullHost) "img" []) = None)
    by (vm_compute; reflexivity).
  split; [exact Hnil|].
  destruct (@ProvideDockerConfigKey_nil nullHost "img" [] Hnil)
    as [(x & e & Hfail)|Hnull].
  - vm_compute in Hfail. discriminate.
  - exact Hnull.
Defined.

(** X11 on a configuration that was never set: only the cloud node
    controller is enabled. *)
Lemma controllers_by_component_witness :
  cloudprovider.ServiceController (cloudprovider.mkConfig "") = (false, false) /\
  cloudprovider.RouteController (cloudprovider.mkConfig "") = (false, false).
Proof.
  apply (controllers_by_component (cloudprovider.mkConfig "")); discriminate.
Defined.

(** X15 on a policy that is created and then updated four times: as it
    is, with another domain, with the same object once more, and with
    another name.  Two of the updates change the stored object, and the
    generation is 3. *)
Lemma generation_counts_changes_witness :
  dnspolicy.generationOf
    (dnspolicy.applyUpdates
       (dnspolicy.PrepareForCreate (policy 7 "web" ["example.com"]))
       [ policy 1 "web" ["example.com"];
         policy 1 "web" ["example.com"; "*.example.org"];
         policy 2 "web" ["example.com"; "*.example.org"];
         policy 2 "dns" ["example.com"; "*.example.org"] ]) = 3%Z.
Proof.
  rewrite (generation_counts_changes (policy 7 "web" ["example.com"])).
  vm_compute. reflexivity.
Defined.

End FurtherWitnesses.
